(** * The 4PM Store: order creation, discount codes and admin totals

    A shallow embedding of [server/controllers/order.js] and
    [server/controllers/admin-controls.js], followed by the properties
    established about them.

    Conventions of the embedding.
    - A JavaScript Number is represented by its exact value: a finite
      double by the rational it denotes, plus [NaN] and the two infinities;
      the two zeros are identified.  Where the code computes a Number from
      others ([0.1 * x], [x - y], the conversion of a string) the result is
      rounded to the nearest double, ties to even ([Js.round53]); [%] and
      [toFixed] are exact operations on the values they receive.
    - A JavaScript String is a [string] whose characters are code units
      below 256.
    - A promise is a computation over the [World] (the three collections,
      the connection, the ObjectId generator and the log of store accesses)
      that settles as [Fulfilled] or [Rejected]; [.then] is the bind of that
      monad. *)

From Stdlib Require Import NArith ZArith QArith Qround Qabs String Ascii List Bool Lia Lqa DecimalString.
Import ListNotations.

Local Open Scope string_scope.
Local Open Scope Z_scope.

(* ================================================================== *)
(** ** JavaScript values used by the controllers *)

Module Js.

Inductive number : Type :=
| NaN
| Infinity (negative : bool)
| Fin (q : Q).

(** Thrown values, by constructor. *)
Inductive error : Type :=
| Error (message : string)
| TypeError (message : string)
| ReferenceError (message : string)
| BSONTypeError (message : string)
| MongoError (message : string).

(** Completion of a synchronous evaluation. *)
Inductive completion (A : Type) : Type :=
| Normal (a : A)
| Throw (e : error).
Arguments Normal {A} a.
Arguments Throw {A} e.

(** *** Rounding to a double (IEEE 754 binary64, round to nearest, ties to
    even) *)

(** [num / den] rounded to an integer, a tie going to the even one; for
    [0 <= num] and [0 < den]. *)
Definition roundHalfEven (num den : Z) : Z :=
  let q := num / den in
  let r := num mod den in
  match 2 * r ?= den with
  | Lt => q
  | Gt => q + 1
  | Eq => if Z.even q then q else q + 1
  end.

(** The integer [e] with [2^e <= a / d < 2^(e+1)], for positive [a], [d]. *)
Definition binade (a d : Z) : Z :=
  let e0 := Z.log2 a - Z.log2 d in
  if (if 0 <=? e0 then d * 2 ^ e0 <=? a else d <=? a * 2 ^ (- e0))
  then e0 else e0 - 1.

(** The value with 53 significant bits nearest to [q], on the grid of
    2^-1074 below the normal range (so a small enough [q] rounds to zero);
    the exponent is not bounded above. *)
Definition round53 (q : Q) : Q :=
  let a := Z.abs (Qnum q) in
  let d := QDen q in
  if a =? 0 then 0%Q
  else
    let p := Z.max (binade a d - 52) (-1074) in
    let v := if 0 <=? p
             then inject_Z (roundHalfEven a (d * 2 ^ p) * 2 ^ p)
             else Qred (roundHalfEven (a * 2 ^ (- p)) d # Z.to_pos (2 ^ (- p))) in
    if Qnum q <? 0 then (- v)%Q else v.

Arguments round53 : simpl never.

(** The Number nearest to [q]: an infinity when the rounded value reaches
    2^1024. *)
Definition nearestDouble (q : Q) : number :=
  let r := round53 q in
  if Qle_bool (inject_Z (2 ^ 1024)) (Qabs r) then Infinity (Qnum q <? 0)
  else Fin r.

(** The Number the literal [0.1] denotes. *)
Definition tenth : Q := round53 (1 # 10).

(** Number::multiply and Number::subtract on finite operands whose result
    stays finite, as [0.1 * x] and [x - 0.1 * x] do for a finite [x]. *)
Definition multiply (x y : Q) : Q := round53 (x * y).

Definition subtract (x y : Q) : Q := round53 (x - y).

(** *** StringToNumber (ECMA-262, 7.1.4.1.1) *)

Definition isStrWhiteSpaceChar (c : ascii) : bool :=
  let n := N_of_ascii c in
  ((n =? 9) || (n =? 10) || (n =? 11) || (n =? 12) || (n =? 13)
   || (n =? 32) || (n =? 160))%N.

Fixpoint dropWhile (p : ascii -> bool) (cs : list ascii) : list ascii :=
  match cs with
  | [] => []
  | c :: cs' => if p c then dropWhile p cs' else cs
  end.

Definition trim (cs : list ascii) : list ascii :=
  rev (dropWhile isStrWhiteSpaceChar (rev (dropWhile isStrWhiteSpaceChar cs))).

(** The value of [c] as a digit of the given radix, if it is one. *)
Definition digitValue (radix : N) (c : ascii) : option N :=
  let n := N_of_ascii c in
  let v := (if (48 <=? n) && (n <=? 57) then Some (n - 48)
            else if (97 <=? n) && (n <=? 102) then Some (n - 87)
            else if (65 <=? n) && (n <=? 70) then Some (n - 55)
            else None)%N in
  match v with
  | Some d => if (d <? radix)%N then Some d else None
  | None => None
  end.

Fixpoint digitsValue (radix acc : N) (cs : list ascii) : option N :=
  match cs with
  | [] => Some acc
  | c :: cs' =>
      match digitValue radix c with
      | Some d => digitsValue radix (acc * radix + d) cs'
      | None => None
      end
  end.

(** A non-empty run of digits. *)
Definition digits (radix : N) (cs : list ascii) : option N :=
  match cs with
  | [] => None
  | _ => digitsValue radix 0 cs
  end.

(** Cut [cs] at the first character satisfying [p]. *)
Fixpoint cut (p : ascii -> bool) (cs : list ascii)
  : list ascii * option (list ascii) :=
  match cs with
  | [] => ([], None)
  | c :: cs' =>
      if p c then ([], Some cs')
      else let (a, b) := cut p cs' in (c :: a, b)
  end.

Definition isChar (s : string) (c : ascii) : bool :=
  existsb (Ascii.eqb c) (list_ascii_of_string s).

(** [+] or [-] prefix: the sign (true when negative) and the rest. *)
Definition signed (cs : list ascii) : bool * list ascii :=
  match cs with
  | c :: cs' =>
      if Ascii.eqb c "-" then (true, cs')
      else if Ascii.eqb c "+" then (false, cs')
      else (false, cs)
  | [] => (false, [])
  end.

(** ExponentPart after the [e]: an optionally signed non-empty run. *)
Definition exponentPart (cs : list ascii) : option Z :=
  let (neg, ds) := signed cs in
  match digits 10 ds with
  | Some e => Some (if neg then - Z.of_N e else Z.of_N e)
  | None => None
  end.

(** StrUnsignedDecimalLiteral other than [Infinity]. *)
Definition unsignedDecimal (cs : list ascii) : option Q :=
  let (mantissa, expo) := cut (isChar "eE") cs in
  let (intPart, fracPart) := cut (isChar ".") mantissa in
  let frac := match fracPart with Some f => f | None => [] end in
  match intPart, frac with
  | [], [] => None
  | _, _ =>
      match digitsValue 10 0 intPart, digitsValue 10 0 frac,
            match expo with
            | Some e => exponentPart e
            | None => Some 0
            end
      with
      | Some i, Some f, Some e =>
          let scale := (10 ^ Z.of_nat (List.length frac)) in
          Some ((inject_Z (Z.of_N i * scale + Z.of_N f) / inject_Z scale)
                * Qpower (inject_Z 10) e)%Q
      | _, _, _ => None
      end
  end.

Definition strDecimalLiteral (cs : list ascii) : number :=
  let (neg, body) := signed cs in
  if list_eq_dec ascii_dec body (list_ascii_of_string "Infinity")
  then Infinity neg
  else match unsignedDecimal body with
       | Some q => nearestDouble (if neg then - q else q)
       | None => NaN
       end.

(** NonDecimalIntegerLiteral: [0x], [0o], [0b] and digits, unsigned. *)
Definition nonDecimalIntegerLiteral (cs : list ascii) : option N :=
  match cs with
  | z :: r :: ds =>
      if Ascii.eqb z "0" then
        if isChar "xX" r then digits 16 ds
        else if isChar "oO" r then digits 8 ds
        else if isChar "bB" r then digits 2 ds
        else None
      else None
  | _ => None
  end.

Definition StringToNumber (s : string) : number :=
  match trim (list_ascii_of_string s) with
  | [] => Fin 0
  | cs =>
      match nonDecimalIntegerLiteral cs with
      | Some n => nearestDouble (inject_Z (Z.of_N n))
      | None => strDecimalLiteral cs
      end
  end.

(** ToNumber of a value that is a String or undefined (an entry of
    [process.env]). *)
Definition ToNumber (v : option string) : number :=
  match v with
  | None => NaN
  | Some s => StringToNumber s
  end.

(** *** Number::remainder, the [%] operator (ECMA-262, 6.1.6.1.6) *)
Definition remainder (n d : number) : number :=
  match n, d with
  | NaN, _ => NaN
  | _, NaN => NaN
  | Infinity _, _ => NaN
  | Fin _, Infinity _ => n
  | Fin x, Fin y =>
      if Qeq_bool y 0 then NaN
      else if Qeq_bool x 0 then n
      else
        let q := Z.quot (Qnum x * QDen y) (Qnum y * QDen x) in
        Fin (x - y * inject_Z q)%Q
  end.

(** [x == 0] for a Number [x] (Number::equal). *)
Definition looselyEqualsZero (x : number) : bool :=
  match x with
  | Fin q => Qeq_bool q 0
  | _ => false
  end.

(** *** Number.prototype.toFixed(2) (ECMA-262, 21.1.3.3)

    For a finite [x] below 10^21 in magnitude the result is the decimal
    string of [n / 100] with exactly two fraction digits, where [n] is the
    integer closest to [100 * |x|] (the larger one on a tie), preceded by
    [-] when [x < 0]; from 10^21 on it is the plain ToString of [x].  The
    string is kept by what it denotes. *)
Inductive fixedString : Type :=
| FixedNotation (negative : bool) (n : Z)
| PlainNotation (x : Q).

Definition toFixed2 (x : Q) : fixedString :=
  let neg := Qlt_le_dec x 0 in
  let ax := if neg then (- x)%Q else x in
  if Qlt_le_dec ax (inject_Z (10 ^ 21)) then
    FixedNotation (if neg then true else false)
                  (Qfloor (ax * inject_Z 100 + (1 # 2))%Q)
  else PlainNotation x.

(** The Number a [fixedString] converts back to: the double nearest to the
    decimal it spells; the plain string of a Number gives that Number. *)
Definition fixedValue (s : fixedString) : Q :=
  match s with
  | FixedNotation neg n =>
      round53 (if neg then - (inject_Z n / inject_Z 100)
               else inject_Z n / inject_Z 100)%Q
  | PlainNotation x => x
  end.

Definition pad2 (s : string) : string :=
  match s with
  | String c EmptyString => String "0" s
  | _ => s
  end.

(** The characters of a [FixedNotation] string. *)
Definition fixedText (s : fixedString) : option string :=
  match s with
  | FixedNotation neg n =>
      Some ((if neg then "-" else "")
            ++ NilZero.string_of_uint (N.to_uint (Z.to_N (n / 100)))
            ++ "."
            ++ pad2 (NilZero.string_of_uint (N.to_uint (Z.to_N (n mod 100)))))
  | PlainNotation _ => None
  end.

(** Decimal text of an integer, as a template literal prints it. *)
Definition ZToString (z : Z) : string :=
  NilZero.string_of_int (Z.to_int z).

(** ToString of a thrown value: its name and message. *)
Definition errorToString (e : error) : string :=
  match e with
  | Error m => "Error: " ++ m
  | TypeError m => "TypeError: " ++ m
  | ReferenceError m => "ReferenceError: " ++ m
  | BSONTypeError m => "BSONTypeError: " ++ m
  | MongoError m => "MongoError: " ++ m
  end.

(** The values that reach the discount-code helper as arguments. *)
Inductive value : Type :=
| Undefined
| Number (x : number)
| StringValue (s : string)
| ObjectIdValue (bytes : N).

End Js.


(* ================================================================== *)
(** ** ObjectId of the [mongodb] driver (bson 4) *)

Module Bson.

(** The twelve bytes of an id, read as one big-endian number below 2^96. *)
Definition ObjectId : Type := N.

Definition wellFormed (id : ObjectId) : Prop := (id < 2 ^ 96)%N.

Definition hexChar (d : N) : ascii :=
  if (d <? 10)%N then ascii_of_N (48 + d) else ascii_of_N (87 + d).

(** The [k] low hexadecimal digits of [n], most significant first. *)
Fixpoint hexDigits (k : nat) (n : N) : list ascii :=
  match k with
  | O => []
  | S k' => hexDigits k' (n / 16) ++ [hexChar (n mod 16)]
  end.

Definition toHexString (id : ObjectId) : string :=
  string_of_list_ascii (hexDigits 24 id).

(** [toString()] with no encoding is [toHexString()]. *)
Definition toString (id : ObjectId) : string := toHexString id.

(** Big-endian value of a run of bytes. *)
Definition bytesValue (cs : list ascii) : N :=
  fold_left (fun acc c => acc * 256 + N_of_ascii c)%N cs 0%N.

Definition isHexChar (c : ascii) : bool :=
  match Js.digitValue 16 c with Some _ => true | None => false end.

Definition invalidId : Js.error :=
  Js.BSONTypeError
    "Argument passed in must be a string of 12 bytes or a string of 24 hex characters or an integer".

(** [new ObjectId(inputId)] for a string [inputId]: twelve characters are
    taken as the bytes (they must encode to twelve bytes of UTF-8, hence
    be below 128), twenty-four hexadecimal characters as the hex form;
    anything else throws. *)
Definition fromString (inputId : string) : Js.completion ObjectId :=
  let cs := list_ascii_of_string inputId in
  if Nat.eqb (List.length cs) 12 then
    if forallb (fun c => (N_of_ascii c <? 128)%N) cs
    then Js.Normal (bytesValue cs)
    else Js.Throw (Js.BSONTypeError "Argument passed in must be a string of 12 bytes")
  else if Nat.eqb (List.length cs) 24 && forallb isHexChar cs then
    match Js.digitsValue 16 0 cs with
    | Some n => Js.Normal n
    | None => Js.Throw invalidId
    end
  else Js.Throw invalidId.

(** [this.equals(otherId)]: false for [undefined]. *)
Definition equals (this : ObjectId) (otherId : option ObjectId) : bool :=
  match otherId with
  | None => false
  | Some other => N.eqb this other
  end.

End Bson.

(* ================================================================== *)
(** ** Constants of [common/typedefs] *)

(** Modelled from the spec: [DiscountCodeStatus] of common/typedefs, which
    is not among the sources; the closed set ACTIVE, USED, EXPIRED. *)
Inductive DiscountCodeStatus : Type := ACTIVE | USED | EXPIRED.

Definition DiscountCodeStatus_eqb (a b : DiscountCodeStatus) : bool :=
  match a, b with
  | ACTIVE, ACTIVE | USED, USED | EXPIRED, EXPIRED => true
  | _, _ => false
  end.

(** Modelled from the spec: [OrderStatus] of common/typedefs; CREATED is the
    only state these controllers produce. *)
Inductive OrderStatus : Type := CREATED.

(* ================================================================== *)
(** ** Documents of the three collections *)

(** One line of [req.body.itemsList], in the documented format
    [{itemId, itemQty}].  A client may add other properties; [_id] is kept
    because the price lookup reads it. *)
Module Line.
Record t : Type := mk {
  _id : option Bson.ObjectId;
  itemId : Bson.ObjectId;
  itemQty : Z
}.
End Line.

(** Modelled from the spec: the schema of common/models/item, which is not
    among the sources; prices and quantities are integers. *)
Module ItemSchema.
Record doc : Type := mk {
  _id : Bson.ObjectId;
  itemName : string;
  priceInPaise : Z;
  availableQty : Z;
  purchasedCount : Z
}.
End ItemSchema.

(** Modelled from the spec: the schema of common/models/discount-code, which
    is not among the sources.  A document keeps the properties its
    constructor was given; [discountAmount] is absent until set. *)
Module DiscountCodeSchema.
Record doc : Type := mk {
  _id : Bson.ObjectId;
  discountPercent : Js.value;
  status : DiscountCodeStatus;
  discountAmount : option Q
}.
End DiscountCodeSchema.

(** Modelled from the spec: the schema of common/models/order, which is not
    among the sources.  The three amounts are Number fields: a numeric
    string given for one of them is stored as the number it denotes. *)
Module OrderSchema.
Record doc : Type := mk {
  _id : Bson.ObjectId;
  userId : Bson.ObjectId;
  status : OrderStatus;
  createdOn : Z;
  itemsPurchased : list Line.t;
  orderValueInPaiseAfterDiscount : Q;
  orderValueInPaiseBeforeDiscount : Q;
  discountAmount : Q;
  discountCode : option string
}.
End OrderSchema.

(* ================================================================== *)
(** ** The world the controllers run in, and promises over it *)

Inductive collection : Type := Items | Orders | DiscountCodes.

Inductive access : Type :=
| Query (c : collection)
| Insert (c : collection).

Record World : Type := mkWorld {
  items : list ItemSchema.doc;
  orders : list OrderSchema.doc;
  discountCodes : list DiscountCodeSchema.doc;
  connected : bool;               (* does the storage answer *)
  nextObjectId : Bson.ObjectId;   (* what the id generator yields next *)
  clock : Z;                      (* what [new Date()] reads *)
  accesses : list access          (* store operations issued, latest first *)
}.

Inductive settled (A : Type) : Type :=
| Fulfilled (a : A)
| Rejected (e : Js.error).
Arguments Fulfilled {A} a.
Arguments Rejected {A} e.

Definition Promise (A : Type) : Type := World -> settled A * World.

Definition resolve {A} (a : A) : Promise A := fun w => (Fulfilled a, w).

Definition reject {A} (e : Js.error) : Promise A := fun w => (Rejected e, w).

(** [p.then(f)]: a rejection of [p] skips [f]. *)
Definition andThen {A B} (p : Promise A) (f : A -> Promise B) : Promise B :=
  fun w =>
    match p w with
    | (Fulfilled a, w') => f a w'
    | (Rejected e, w') => (Rejected e, w')
    end.

(** [p.catch(h)]. *)
Definition orCatch {A} (p : Promise A) (h : Js.error -> Promise A) : Promise A :=
  fun w =>
    match p w with
    | (Fulfilled a, w') => (Fulfilled a, w')
    | (Rejected e, w') => h e w'
    end.

Declare Scope promise_scope.
Delimit Scope promise_scope with promise.
Notation "x <- p ;; k" := (andThen p (fun x => k))
  (at level 61, p at next level, right associativity) : promise_scope.

(** [new ObjectId()]: the generator hands out its next id. *)
Definition generateObjectId (w : World) : Bson.ObjectId * World :=
  (nextObjectId w,
   mkWorld (items w) (orders w) (discountCodes w) (connected w)
           (N.succ (nextObjectId w)) (clock w) (accesses w)).

Definition logged (a : access) (w : World) : World :=
  mkWorld (items w) (orders w) (discountCodes w) (connected w)
          (nextObjectId w) (clock w) (a :: accesses w).

Definition unavailable : Js.error := Js.MongoError "storage unavailable".

(** A read of collection [c]: answered from the current contents when the
    storage is connected, rejected otherwise. *)
Definition query {A} (c : collection) (read : World -> A) : Promise A :=
  fun w =>
    if connected w then (Fulfilled (read w), logged (Query c) w)
    else (Rejected unavailable, logged (Query c) w).

(** A write to collection [c]. *)
Definition insert (c : collection) (write : World -> World) : Promise unit :=
  fun w =>
    if connected w then (Fulfilled tt, logged (Insert c) (write w))
    else (Rejected unavailable, logged (Insert c) w).

(** [$group: {_id: null, total: {$sum: '$field'}}]: no group for an empty
    collection, otherwise one row with the sum of the numeric values of the
    field; documents without the field add nothing.  The row's property is
    [None] when undefined. *)
Definition groupSum (values : list (option Q)) : list (option Q) :=
  match values with
  | [] => []
  | _ =>
      [Some (fold_left
               (fun acc v => match v with Some x => (acc + x)%Q | None => acc end)
               values 0%Q)]
  end.

(* ================================================================== *)
(** ** The models, by the operations the controllers call

    The model objects of common/models are not among the sources; each is
    given here by the Mongoose operations the controllers call on it. *)

(** Modelled from the spec: the [Item] model of common/models/item, by the
    two queries the controllers issue on the catalog. *)
Module Item.

(** A row of the [$project] stage: [_id], [availableQty], [priceInPaise],
    [itemName]. *)
Record row : Type := mkRow {
  _id : Bson.ObjectId;
  availableQty : Z;
  priceInPaise : Z;
  itemName : string
}.

Definition project (d : ItemSchema.doc) : row :=
  mkRow (ItemSchema._id d) (ItemSchema.availableQty d)
        (ItemSchema.priceInPaise d) (ItemSchema.itemName d).

(** [Item.aggregate([{$match: {_id: {$in: ids}}}, {$project: ...}])]. *)
Definition aggregate (ids : list Bson.ObjectId) : Promise (list row) :=
  query Items (fun w =>
    map project
        (filter (fun d => existsb (N.eqb (ItemSchema._id d)) ids) (items w))).

(** [Item.find({}, {_id: 1, itemName: 1, purchasedCount: 1})]. *)
Definition find : Promise (list (Bson.ObjectId * string * Z)) :=
  query Items (fun w =>
    map (fun d => (ItemSchema._id d, ItemSchema.itemName d,
                   ItemSchema.purchasedCount d)) (items w)).

End Item.

(** Modelled from the spec: the [Order] model of common/models/order: the
    count of existing orders, the insertion of a new one, and the sum of
    the totals after discount. *)
Module Order.

Definition countDocuments : Promise Z :=
  query Orders (fun w => Z.of_nat (List.length (orders w))).

(** [order.save()] of a new document. *)
Definition save (order : OrderSchema.doc) : Promise unit :=
  insert Orders (fun w =>
    mkWorld (items w) (orders w ++ [order]) (discountCodes w) (connected w)
            (nextObjectId w) (clock w) (accesses w)).

(** [Order.aggregate([{$group: ... $sum: '$orderValueInPaiseAfterDiscount'}])
    .toArray(callback)]: what the callback receives as [(error, result)]. *)
Definition aggregateToArray (w : World)
  : (option Js.error * list (option Q)) * World :=
  match query Orders (fun w =>
          groupSum (map (fun o => Some (OrderSchema.orderValueInPaiseAfterDiscount o))
                        (orders w))) w with
  | (Fulfilled result, w') => ((None, result), w')
  | (Rejected e, w') => ((Some e, []), w')
  end.

End Order.

(** Modelled from the spec: the [DiscountCode] model of
    common/models/discount-code: insertion, lookup by id, listing, and the
    sum of the discount amounts. *)
Module DiscountCode.

(** [discountCode.save()] of a new document; fulfils with the document. *)
Definition save (d : DiscountCodeSchema.doc) : Promise DiscountCodeSchema.doc :=
  (_ <- insert DiscountCodes (fun w =>
          mkWorld (items w) (orders w) (discountCodes w ++ [d]) (connected w)
                  (nextObjectId w) (clock w) (accesses w)) ;;
   resolve d)%promise.

(** [DiscountCode.findOne({_id: id}, {status: 1, discountPercent: 1})]:
    the first document with that id, or null. *)
Definition findOne (id : Bson.ObjectId) : Promise (option DiscountCodeSchema.doc) :=
  query DiscountCodes (fun w =>
    List.find (fun d => N.eqb (DiscountCodeSchema._id d) id) (discountCodes w)).

(** [DiscountCode.find({}, {_id: 1, discountPercent: 1, discountAmount: 1})]. *)
Definition find : Promise (list (Bson.ObjectId * Js.value * option Q)) :=
  query DiscountCodes (fun w =>
    map (fun d => (DiscountCodeSchema._id d, DiscountCodeSchema.discountPercent d,
                   DiscountCodeSchema.discountAmount d)) (discountCodes w)).

(** [DiscountCode.aggregate([{$group: ... $sum: '$discountAmount'}])
    .toArray(callback)]. *)
Definition aggregateToArray (w : World)
  : (option Js.error * list (option Q)) * World :=
  match query DiscountCodes (fun w =>
          groupSum (map DiscountCodeSchema.discountAmount (discountCodes w))) w with
  | (Fulfilled result, w') => ((None, result), w')
  | (Rejected e, w') => ((Some e, []), w')
  end.

End DiscountCode.

(* ================================================================== *)
(** ** Requests and what a middleware does with them *)

Record Request : Type := mkRequest {
  userId : string;                      (* [req.userId] *)
  userIsAdmin : option bool;            (* [req.userIsAdmin], possibly absent *)
  itemsList : option (list Line.t)      (* [req.body.itemsList] *)
}.

(** The [error] property of an error response. *)
Inductive errorValue : Type :=
| INTERNAL_SERVER_ERROR_result          (* [Results.INTERNAL_SERVER_ERROR] *)
| Caught (e : Js.error).

Inductive json : Type :=
| ErrorJson (error : errorValue)
| ItemsJson (items : list (Bson.ObjectId * string * Z))
| TotalPurchaseAmountJson (totalPurchaseAmount : Q)
| DisCountCodesJson (disCountCodes : list (Bson.ObjectId * Js.value * option Q))
| TotalDiscountAmountJson (totalDiscountAmount : Q)
| OrderJson (orderId : Bson.ObjectId) (invoiceId : string)
            (orderValueInPaiseAfterDiscount : Js.fixedString) (discountAmount : Q).

(** [HttpStatus.StatusCodes] of http-status-codes. *)
Definition OK : Z := 200.
Definition INTERNAL_SERVER_ERROR : Z := 500.

Inductive outcome : Type :=
| Responded (status : Z) (body : json)   (* [res.status(..).json(..)] *)
| Next (discountCode : string)           (* [next()] with [req.discountCode] set *)
| Uncaught (e : Js.error)                (* thrown in a callback, outside any try *)
| UnhandledRejection (e : Js.error).     (* the chain rejected, nothing handles it *)

Definition Middleware : Type := Request -> World -> outcome * World.

(** [!req.userIsAdmin]. *)
Definition notAdmin (req : Request) : bool :=
  match userIsAdmin req with
  | Some true => false
  | _ => true
  end.

Definition unauthorized : outcome :=
  Responded INTERNAL_SERVER_ERROR (ErrorJson INTERNAL_SERVER_ERROR_result).

(* ================================================================== *)
(** ** admin-controls.js *)

Module AdminController.

Local Open Scope promise_scope.

(** [createDiscountCodeHelper = (discountPercent = 10) => ...]: the one
    declared parameter takes the first argument, or 10 when that is
    missing or undefined; further arguments are bound to nothing. *)
Definition createDiscountCodeHelper (arguments : list Js.value) : Promise string :=
  let discountPercent :=
    match arguments with
    | [] => Js.Number (Js.Fin 10)
    | Js.Undefined :: _ => Js.Number (Js.Fin 10)
    | v :: _ => v
    end in
  fun w =>
    let (id, w1) := generateObjectId w in
    let discountCode := DiscountCodeSchema.mk id discountPercent ACTIVE None in
    (newDiscountCode <- DiscountCode.save discountCode ;;
     resolve (Bson.toString (DiscountCodeSchema._id newDiscountCode))) w1.

Definition createDiscountCode : Middleware :=
  fun req w =>
    if notAdmin req then (unauthorized, w)
    else
      match createDiscountCodeHelper [] w with
      | (Fulfilled discountCode, w') => (Next discountCode, w')
      | (Rejected _, w') =>
          (Responded INTERNAL_SERVER_ERROR (ErrorJson INTERNAL_SERVER_ERROR_result), w')
      end.

Definition getItemsPurchasedList : Middleware :=
  fun req w =>
    if notAdmin req then (unauthorized, w)
    else
      match Item.find w with
      | (Fulfilled items, w') => (Responded OK (ItemsJson items), w')
      | (Rejected _, w') =>
          (Responded INTERNAL_SERVER_ERROR (ErrorJson INTERNAL_SERVER_ERROR_result), w')
      end.

(** The callback given to [toArray] by both totals: it throws on an error,
    on an empty result and on a first row whose total is falsy (undefined
    or zero), and otherwise responds with that total. *)
Definition totalCallback (missing : string) (respond : Q -> json)
           (error : option Js.error) (result : list (option Q)) : outcome :=
  match error with
  | Some e => Uncaught (Js.Error (Js.errorToString e))
  | None =>
      match result with
      | [] => Uncaught (Js.Error missing)
      | None :: _ => Uncaught (Js.Error missing)
      | Some total :: _ =>
          if Qeq_bool total 0 then Uncaught (Js.Error missing)
          else Responded OK (respond total)
      end
  end.

Definition getTotalPurchaseAmount : Middleware :=
  fun req w =>
    if notAdmin req then (unauthorized, w)
    else
      let '((error, result), w') := Order.aggregateToArray w in
      (totalCallback "Result missing total purchase amount"
                     TotalPurchaseAmountJson error result, w').

Definition getDiscountCodesList : Middleware :=
  fun req w =>
    if notAdmin req then (unauthorized, w)
    else
      match DiscountCode.find w with
      | (Fulfilled disCountCodes, w') =>
          (Responded OK (DisCountCodesJson disCountCodes), w')
      | (Rejected _, w') =>
          (Responded INTERNAL_SERVER_ERROR (ErrorJson INTERNAL_SERVER_ERROR_result), w')
      end.

Definition getTotalDiscountAmount : Middleware :=
  fun req w =>
    if notAdmin req then (unauthorized, w)
    else
      let '((error, result), w') := DiscountCode.aggregateToArray w in
      (totalCallback "Result missing total discount amount"
                     TotalDiscountAmountJson error result, w').

(** What [validateDiscountCode] resolves with; [discountPercent] is
    present only for a valid code. *)
Record validation : Type := mkValidation {
  validCode : bool;
  discountPercent : option Js.value
}.

(** [new ObjectId(discountCode)] is evaluated in the promise executor,
    before [findOne] and outside its [.catch]: when it throws, the promise
    is rejected. *)
Definition validateDiscountCode (discountCode : string) : Promise validation :=
  match Bson.fromString discountCode with
  | Js.Throw e => reject e
  | Js.Normal id =>
      orCatch
        (found <- DiscountCode.findOne id ;;
         match found with
         | None => resolve (mkValidation false None)
         | Some d =>
             if negb (DiscountCodeStatus_eqb (DiscountCodeSchema.status d) ACTIVE)
             then resolve (mkValidation false None)
             else resolve (mkValidation true
                             (Some (DiscountCodeSchema.discountPercent d)))
         end)
        (fun _ => resolve (mkValidation false None))
  end.

End AdminController.

(* ================================================================== *)
(** ** order.js *)

Module OrderController.

Local Open Scope promise_scope.

(** [process.env]: entries are strings, or undefined when not set. *)
Record ProcessEnv : Type := mkEnv {
  NTH_ORDER_COUNT : option string
}.

(** The [let] variables of [createNewOrder] that its callbacks share,
    and [orderId]. *)
Record Locals : Type := mkLocals {
  orderValueInPaiseBeforeDiscount : Q;
  orderValueInPaiseAfterDiscount : Q;
  discountAmount : Q;
  orderId : Bson.ObjectId
}.

(** Line 65 reads the identifier [itemQty].  Neither the callback, nor
    [createNewOrder], nor the module declares it, and the file is in strict
    mode: the read throws. *)
Definition itemQty_identifier : Js.completion Z :=
  Js.Throw (Js.ReferenceError "itemQty is not defined").

(** The body of [itemsList.forEach((item) => ...)], lines 55 to 65.
    [dbItem?.availableQty < item.itemQty] is false when [dbItem] is
    undefined, and [dbItem.priceInPaise] then throws. *)
Definition priceLine (dbItemsList : list Item.row) (l : Locals) (item : Line.t)
  : Js.completion Locals :=
  let dbItem :=
    List.find (fun dbItem => Bson.equals (Item._id dbItem) (Line._id item))
              dbItemsList in
  match dbItem with
  | Some dbItem =>
      if (Item.availableQty dbItem <? Line.itemQty item)%Z then
        Js.Throw (Js.Error ("Only " ++ Js.ZToString (Item.availableQty dbItem)
                            ++ " units of " ++ Item.itemName dbItem
                            ++ " are left"))
      else
        match itemQty_identifier with
        | Js.Normal itemQty =>
            Js.Normal
              (mkLocals (orderValueInPaiseBeforeDiscount l
                         + inject_Z (Item.priceInPaise dbItem * itemQty))%Q
                        (orderValueInPaiseAfterDiscount l)
                        (discountAmount l) (orderId l))
        | Js.Throw e => Js.Throw e
        end
  | None =>
      Js.Throw (Js.TypeError
                  "Cannot read properties of undefined (reading 'priceInPaise')")
  end.

(** [array.forEach(callback)], the callback threading the shared state; a
    throw ends the loop. *)
Fixpoint forEach {A S : Type} (callback : S -> A -> Js.completion S)
         (array : list A) (s : S) : Js.completion S :=
  match array with
  | [] => Js.Normal s
  | x :: rest =>
      match callback s x with
      | Js.Normal s' => forEach callback rest s'
      | Js.Throw e => Js.Throw e
      end
  end.

(** First [.then], lines 45 to 70. *)
Definition priceItems (itemsList : list Line.t) (l : Locals)
           (dbItemsList : list Item.row) : Promise (Locals * Z) :=
  match dbItemsList with
  | [] => reject (Js.Error "Items not found")
  | _ =>
      match forEach (priceLine dbItemsList) itemsList l with
      | Js.Throw e => reject e
      | Js.Normal l' =>
          existingOrdersCount <- Order.countDocuments ;;
          resolve (l', existingOrdersCount)
      end
  end.

(** [currentOrderCount % process.env.NTH_ORDER_COUNT == 0], line 77. *)
Definition eligible (env : ProcessEnv) (existingOrdersCount : Z) : bool :=
  let currentOrderCount := existingOrdersCount + 1 in
  Js.looselyEqualsZero
    (Js.remainder (Js.Fin (inject_Z currentOrderCount))
                  (Js.ToNumber (NTH_ORDER_COUNT env))).

(** Second [.then], lines 71 to 92: fulfils with the discount code, or
    with undefined. *)
Definition applyDiscount (env : ProcessEnv) (entry : Locals * Z)
  : Promise (Locals * option string) :=
  let (l, existingOrdersCount) := entry in
  if eligible env existingOrdersCount then
    let discountPercent := Js.Fin 10 in
    let discountAmount :=
      Js.multiply Js.tenth (orderValueInPaiseBeforeDiscount l) in
    let orderValueInPaiseAfterDiscount :=
      Js.subtract (orderValueInPaiseBeforeDiscount l) discountAmount in
    let l' := mkLocals (orderValueInPaiseBeforeDiscount l)
                       orderValueInPaiseAfterDiscount discountAmount (orderId l) in
    discountCode <- AdminController.createDiscountCodeHelper
                      [Js.ObjectIdValue (orderId l);
                       Js.Number discountPercent;
                       Js.Number (Js.Fin discountAmount)] ;;
    resolve (l', Some discountCode)
  else
    resolve (mkLocals (orderValueInPaiseBeforeDiscount l)
                      (orderValueInPaiseBeforeDiscount l)
                      (discountAmount l) (orderId l), None).

(** Third [.then], lines 93 to 117: both totals become [toFixed(2)]
    strings, the order is built and saved.  Fulfils with the string of the
    total after discount and the discount amount, which the later
    callbacks read. *)
Definition saveOrder (req : Request) (itemsList : list Line.t)
           (entry : Locals * option string) : Promise (Js.fixedString * Q) :=
  let (l, discountCode) := entry in
  let orderValueInPaiseAfterDiscount :=
    Js.toFixed2 (orderValueInPaiseAfterDiscount l) in
  let orderValueInPaiseBeforeDiscount :=
    Js.toFixed2 (orderValueInPaiseBeforeDiscount l) in
  fun w =>
    match Bson.fromString (userId req) with
    | Js.Throw e => (Rejected e, w)
    | Js.Normal user =>
        let order :=
          OrderSchema.mk (orderId l) user CREATED (clock w) itemsList
                         (Js.fixedValue orderValueInPaiseAfterDiscount)
                         (Js.fixedValue orderValueInPaiseBeforeDiscount)
                         (discountAmount l) discountCode in
        (_ <- Order.save order ;;
         resolve (orderValueInPaiseAfterDiscount, discountAmount l)) w
    end.

(** [createNewOrder].  [generateInvoice] stands for
    [PaymentsController.generateInvoice], which is outside these sources.
    The promise chain has no [.catch]: the [try] only covers what runs
    before the first callback. *)
Definition createNewOrder
           (generateInvoice : Bson.ObjectId -> Js.fixedString -> Promise string)
           (env : ProcessEnv) : Middleware :=
  fun req w =>
    let (orderId, w0) := generateObjectId w in
    match itemsList req with
    | None | Some [] =>
        (Responded INTERNAL_SERVER_ERROR
           (ErrorJson (Caught (Js.Error "Failed to create order. No items found"))),
         w0)
    | Some itemsList =>
        match (dbItemsList <- Item.aggregate (map Line.itemId itemsList) ;;
               counted <- priceItems itemsList (mkLocals 0 0 0 orderId) dbItemsList ;;
               discounted <- applyDiscount env counted ;;
               saved <- saveOrder req itemsList discounted ;;
               invoiceId <- generateInvoice orderId (fst saved) ;;
               resolve (OrderJson orderId invoiceId (fst saved) (snd saved))) w0
        with
        | (Fulfilled body, w') => (Responded OK body, w')
        | (Rejected e, w') => (UnhandledRejection e, w')
        end
    end.

End OrderController.

(* ================================================================== *)
(** ** Vocabulary of the statements *)

(** The sum of a list of amounts. *)
Definition total (amounts : list Q) : Q := fold_right Qplus 0%Q amounts.

(** The amounts that are present. *)
Fixpoint present (amounts : list (option Q)) : list Q :=
  match amounts with
  | [] => []
  | Some x :: rest => x :: present rest
  | None :: rest => present rest
  end.

(** The Number [x] is the integer [n]. *)
Definition isInteger (x : Js.number) (n : Z) : Prop :=
  match x with
  | Js.Fin q => (q == inject_Z n)%Q
  | _ => False
  end.

(** The id the generator yields next is well formed and no discount code
    carries it yet. *)
Definition freshCodeId (w : World) : Prop :=
  Bson.wellFormed (nextObjectId w) /\
  forall d, In d (discountCodes w) -> DiscountCodeSchema._id d <> nextObjectId w.

(** The second and third callbacks of [createNewOrder] in sequence, lines 71
    to 117, from the state in which the second one is entered. *)
Definition discountAndSave (env : OrderController.ProcessEnv) (req : Request)
           (requested : list Line.t) (entry : OrderController.Locals * Z)
  : Promise (OrderController.Locals * option string) :=
  (discounted <- OrderController.applyDiscount env entry ;;
   _ <- OrderController.saveOrder req requested discounted ;;
   resolve discounted)%promise.

(** [String.prototype.toUpperCase] on ASCII characters: the letters a to z
    move to A to Z, the rest stays. *)
Definition upperChar (c : ascii) : ascii :=
  let n := N_of_ascii c in
  if ((97 <=? n) && (n <=? 122))%N then ascii_of_N (n - 32) else c.

Definition toUpperCase (s : string) : string :=
  string_of_list_ascii (map upperChar (list_ascii_of_string s)).

(** From [w] to [w'] nothing was written and no id was generated: at most
    one query was issued. *)
Definition readsOnly (w w' : World) : Prop :=
  items w' = items w /\
  orders w' = orders w /\
  discountCodes w' = discountCodes w /\
  nextObjectId w' = nextObjectId w /\
  (accesses w' = accesses w \/ exists c, accesses w' = Query c :: accesses w).

(** No stored discount code carries a [discountAmount]. *)
Definition withoutAmounts (w : World) : Prop :=
  Forall (fun d => DiscountCodeSchema.discountAmount d = None) (discountCodes w).

(** Successive calls of [createDiscountCodeHelper], one per argument list;
    the world they leave. *)
Definition issueAll (calls : list (list Js.value)) (w : World) : World :=
  fold_left
    (fun w arguments => snd (AdminController.createDiscountCodeHelper arguments w))
    calls w.

(** Line 23 and lines 69 to 117 of [createNewOrder]: a new order id, the
    count of existing orders and the callbacks that follow it, for an order
    whose total before discount is [before] paise. *)
Definition placeOrder (env : OrderController.ProcessEnv) (req : Request)
           (requested : list Line.t) (before : Z)
  : Promise (OrderController.Locals * option string) :=
  fun w =>
    let (orderId, w0) := generateObjectId w in
    (existingOrdersCount <- Order.countDocuments ;;
     discountAndSave env req requested
       (OrderController.mkLocals (inject_Z before) 0 0 orderId,
        existingOrdersCount))%promise w0.

(** Orders placed one after the other; the world they leave. *)
Definition placeOrders (env : OrderController.ProcessEnv) (req : Request)
           (requested : list Line.t) (befores : list Z) (w : World) : World :=
  fold_left (fun w before => snd (placeOrder env req requested before w)) befores w.

(** The discount of the order at [position] with period [N]: the double
    product of 0.1 and the total, or nothing. *)
Definition expectedDiscount (N position before : Z) : Q :=
  if position mod N =? 0 then Js.multiply Js.tenth (inject_Z before) else 0%Q.

Fixpoint expectedDiscounts (N position : Z) (befores : list Z) : list Q :=
  match befores with
  | [] => []
  | before :: rest =>
      expectedDiscount N position before :: expectedDiscounts N (position + 1) rest
  end.

(* ================================================================== *)
(** ** Sample data *)

Module Sample.

Definition pen : ItemSchema.doc := ItemSchema.mk 1%N "Pen" 100 5 0.

(** A catalog of one item, no orders, no codes, storage connected. *)
Definition shop : World := mkWorld [pen] [] [] true 4096%N 0 [].

Definition customer : string := "0123456789abcdef01234567".

(** An ACTIVE code of 10 percent, and a shop that holds it. *)
Definition promo : DiscountCodeSchema.doc :=
  DiscountCodeSchema.mk 4095%N (Js.Number (Js.Fin 10)) ACTIVE None.

Definition promoShop : World := mkWorld [pen] [] [promo] true 4096%N 0 [].

Definition promoCode : string := "000000000000000000000fff".

(** A request for [quantity] pens, in the documented format. *)
Definition buyPens (quantity : Z) : Request :=
  mkRequest customer None (Some [Line.mk None 1%N quantity]).

Definition invoice : Bson.ObjectId -> Js.fixedString -> Promise string :=
  fun _ _ => resolve "invoice-1".

Definition everyFifth : OrderController.ProcessEnv :=
  OrderController.mkEnv (Some "5").

Definition notConfigured : OrderController.ProcessEnv :=
  OrderController.mkEnv None.

Definition admin : Request := mkRequest customer (Some true) None.

Definition visitor : Request := mkRequest customer None None.

Definition anOrder (after : Q) : OrderSchema.doc :=
  OrderSchema.mk 7%N 8%N CREATED 0 [] after after 0%Q None.

(** A shop with two orders and one code. *)
Definition tradingShop : World :=
  mkWorld [pen] [anOrder 900; anOrder 1000] [promo] true 4096%N 0 [].

(** A shop with four orders: the next one is the fifth. *)
Definition fifthOrderShop : World :=
  mkWorld [pen] [anOrder 100; anOrder 100; anOrder 100; anOrder 100] []
          true 4096%N 0 [].

(** The shop with its storage unreachable. *)
Definition closedShop : World := mkWorld [pen] [] [] false 4096%N 0 [].

(** A request whose user id is not an ObjectId string. *)
Definition stranger : Request :=
  mkRequest "nobody" None (Some [Line.mk None 1%N 2]).

End Sample.

(* ================================================================== *)
(** * Properties *)

(** ** The embedding on small inputs *)

Example StringToNumber_decimal : Js.StringToNumber " 5 " = Js.Fin 5.
Proof. reflexivity. Qed.

Example StringToNumber_hex : Js.StringToNumber "0x10" = Js.Fin 16.
Proof. reflexivity. Qed.

Example StringToNumber_fraction : Js.StringToNumber "2.5e-1" = Js.Fin (1 # 4).
Proof. reflexivity. Qed.

Example StringToNumber_words : Js.StringToNumber "5 orders" = Js.NaN.
Proof. reflexivity. Qed.

Example StringToNumber_tenth :
  Js.StringToNumber "0.1" = Js.Fin (3602879701896397 # 36028797018963968).
Proof. vm_compute. reflexivity. Qed.

Example StringToNumber_underflow : Js.StringToNumber "1e-400" = Js.Fin 0.
Proof. vm_compute. reflexivity. Qed.

Example StringToNumber_overflow : Js.StringToNumber "-1e400" = Js.Infinity true.
Proof. vm_compute. reflexivity. Qed.

Example StringToNumber_above_2_53 :
  Js.StringToNumber "9007199254740993" = Js.Fin 9007199254740992.
Proof. vm_compute. reflexivity. Qed.

Example round53_tie_to_even :
  Js.round53 9007199254740995 = 9007199254740996%Q.
Proof. vm_compute. reflexivity. Qed.

Example subtract_rounds :
  Js.subtract 3 (Js.multiply Js.tenth 3) = Js.round53 (27 # 10).
Proof. vm_compute. reflexivity. Qed.

Example remainder_sign_of_dividend :
  Js.remainder (Js.Fin (-7)) (Js.Fin 5) = Js.Fin (-2).
Proof. reflexivity. Qed.

Example remainder_by_zero : Js.remainder (Js.Fin 5) (Js.Fin 0) = Js.NaN.
Proof. reflexivity. Qed.

Example toFixed2_pads : Js.fixedText (Js.toFixed2 (27 # 10)) = Some "2.70".
Proof. reflexivity. Qed.

Example toFixed2_tie_up : Js.fixedText (Js.toFixed2 (1 # 8)) = Some "0.13".
Proof. reflexivity. Qed.

Example toHexString_sample : Bson.toHexString 4095%N = Sample.promoCode.
Proof. reflexivity. Qed.

Example fromString_twelve_characters :
  Bson.fromString "abcdefghijkl" = Js.Normal 30138990049255557934854335340%N.
Proof. reflexivity. Qed.

(** ** ObjectId: the hex form reads back *)

Lemma digitsValue_app radix cs1 cs2 acc :
  Js.digitsValue radix acc (cs1 ++ cs2) =
  match Js.digitsValue radix acc cs1 with
  | Some v => Js.digitsValue radix v cs2
  | None => None
  end.
Proof.
  revert acc. induction cs1 as [|c cs1 IH]; intros acc; simpl.
  - reflexivity.
  - destruct (Js.digitValue radix c); [apply IH | reflexivity].
Qed.

Lemma digitValue_hexChar d :
  (d < 16)%N -> Js.digitValue 16 (Bson.hexChar d) = Some d.
Proof.
  intros H.
  destruct d as [|p]; [reflexivity|].
  do 4 (destruct p as [p|p|]; try reflexivity); exfalso; lia.
Qed.

Lemma hexDigits_length k n : List.length (Bson.hexDigits k n) = k.
Proof.
  revert n. induction k as [|k IH]; intros n; simpl.
  - reflexivity.
  - rewrite length_app, IH. simpl. lia.
Qed.

Lemma hexDigits_isHex k n : forallb Bson.isHexChar (Bson.hexDigits k n) = true.
Proof.
  revert n. induction k as [|k IH]; intros n; simpl.
  - reflexivity.
  - rewrite forallb_app, IH. simpl.
    unfold Bson.isHexChar. rewrite digitValue_hexChar; [reflexivity|].
    apply N.mod_lt. discriminate.
Qed.

Lemma digitsValue_hexDigits k n acc :
  Js.digitsValue 16 acc (Bson.hexDigits k n)
  = Some (acc * 16 ^ N.of_nat k + n mod 16 ^ N.of_nat k)%N.
Proof.
  revert n acc. induction k as [|k IH]; intros n acc.
  - simpl. rewrite N.mod_1_r. f_equal. lia.
  - cbn [Bson.hexDigits]. rewrite digitsValue_app, IH.
    cbn [Js.digitsValue]. rewrite digitValue_hexChar by (apply N.mod_lt; discriminate).
    f_equal.
    rewrite Nat2N.inj_succ, N.pow_succ_r'.
    rewrite (N.Div0.mod_mul_r n 16 (16 ^ N.of_nat k)).
    lia.
Qed.

Lemma fromString_toString id :
  Bson.wellFormed id -> Bson.fromString (Bson.toString id) = Js.Normal id.
Proof.
  intros Hid. unfold Bson.fromString, Bson.toString, Bson.toHexString.
  rewrite list_ascii_of_string_of_list_ascii.
  rewrite hexDigits_length, hexDigits_isHex. simpl Nat.eqb. cbn [andb].
  rewrite digitsValue_hexDigits, N.mul_0_l, N.add_0_l.
  cbv beta iota.
  rewrite N.mod_small by exact Hid. reflexivity.
Qed.

(** ** Discount codes *)

Lemma find_app_fresh id (d : DiscountCodeSchema.doc) codes :
  DiscountCodeSchema._id d = id ->
  (forall c, In c codes -> DiscountCodeSchema._id c <> id) ->
  List.find (fun c => N.eqb (DiscountCodeSchema._id c) id) (codes ++ [d]) = Some d.
Proof.
  intros Hd. induction codes as [|c codes IH]; intros Hfresh; simpl.
  - rewrite Hd, N.eqb_refl. reflexivity.
  - destruct (N.eqb_spec (DiscountCodeSchema._id c) id) as [E|_].
    + exfalso. apply (Hfresh c); [left; reflexivity | exact E].
    + apply IH. intros c' Hin. apply Hfresh. right. exact Hin.
Qed.

(** What [validateDiscountCode] does with a code the ObjectId constructor
    accepts: it always fulfils, with the verdict the stored status gives. *)
Lemma validateDiscountCode_accepted code id w :
  Bson.fromString code = Js.Normal id ->
  AdminController.validateDiscountCode code w =
  (Fulfilled
     (if connected w then
        match List.find (fun d => N.eqb (DiscountCodeSchema._id d) id) (discountCodes w) with
        | Some d =>
            match DiscountCodeSchema.status d with
            | ACTIVE => AdminController.mkValidation true
                          (Some (DiscountCodeSchema.discountPercent d))
            | _ => AdminController.mkValidation false None
            end
        | None => AdminController.mkValidation false None
        end
      else AdminController.mkValidation false None),
   logged (Query DiscountCodes) w).
Proof.
  intros Hid. unfold AdminController.validateDiscountCode. rewrite Hid.
  unfold orCatch, andThen, DiscountCode.findOne, query.
  destruct (connected w); [|reflexivity].
  destruct (List.find _ (discountCodes w)) as [d|]; [|reflexivity].
  destruct (DiscountCodeSchema.status d); reflexivity.
Qed.

(** C5.  [validateDiscountCode] does raise an error: for every code string
    that the ObjectId constructor refuses (a malformed code), the promise is
    rejected with the constructor's error and nothing is looked up, where
    the claim requires the result [{validCode: false}]. *)
Theorem validateDiscountCode_malformed_rejects code e w :
  Bson.fromString code = Js.Throw e ->
  AdminController.validateDiscountCode code w = (Rejected e, w).
Proof.
  intros Hthrow. unfold AdminController.validateDiscountCode.
  rewrite Hthrow. reflexivity.
Qed.

Lemma validateDiscountCode_malformed_rejects_witness :
  Bson.fromString "abc" = Js.Throw Bson.invalidId /\
  AdminController.validateDiscountCode "abc" Sample.shop
  = (Rejected Bson.invalidId, Sample.shop).
Proof.
  split.
  - reflexivity.
  - apply (validateDiscountCode_malformed_rejects "abc" Bson.invalidId Sample.shop).
    reflexivity.
Defined.

(** C7.  Issuing a code with percent [p] and validating the returned
    identifier at once yields [{validCode: true, discountPercent: p}], when
    the storage is connected and the generated id is fresh. *)
Theorem issue_then_validate (p : Js.number) w :
  connected w = true ->
  freshCodeId w ->
  exists code w1,
    AdminController.createDiscountCodeHelper [Js.Number p] w = (Fulfilled code, w1) /\
    fst (AdminController.validateDiscountCode code w1)
    = Fulfilled (AdminController.mkValidation true (Some (Js.Number p))).
Proof.
  intros Hup [Hwf Hfresh].
  exists (Bson.toString (nextObjectId w)).
  eexists. split.
  - unfold AdminController.createDiscountCodeHelper, generateObjectId,
      DiscountCode.save, andThen, insert, resolve.
    cbn. rewrite Hup. cbn. reflexivity.
  - rewrite (validateDiscountCode_accepted _ (nextObjectId w))
      by (apply fromString_toString; exact Hwf).
    cbn.
    rewrite find_app_fresh by (reflexivity || exact Hfresh).
    reflexivity.
Qed.

Lemma issue_then_validate_witness :
  exists code w1,
    AdminController.createDiscountCodeHelper [Js.Number (Js.Fin 25)] Sample.shop
    = (Fulfilled code, w1) /\
    fst (AdminController.validateDiscountCode code w1)
    = Fulfilled (AdminController.mkValidation true (Some (Js.Number (Js.Fin 25)))).
Proof.
  apply (issue_then_validate (Js.Fin 25) Sample.shop).
  - reflexivity.
  - split.
    + unfold Bson.wellFormed. reflexivity.
    + simpl. intros d [].
Defined.

(** C8.  Validating an ACTIVE code twice in succession gives the same
    result both times, and the second call finds every collection as the
    first one did: validation changes no status. *)
Theorem validateDiscountCode_idempotent code id d w :
  Bson.fromString code = Js.Normal id ->
  List.find (fun c => N.eqb (DiscountCodeSchema._id c) id) (discountCodes w) = Some d ->
  DiscountCodeSchema.status d = ACTIVE ->
  let first := AdminController.validateDiscountCode code w in
  let second := AdminController.validateDiscountCode code (snd first) in
  fst first
  = Fulfilled (if connected w
               then AdminController.mkValidation true
                      (Some (DiscountCodeSchema.discountPercent d))
               else AdminController.mkValidation false None) /\
  fst second = fst first /\
  discountCodes (snd second) = discountCodes w /\
  orders (snd second) = orders w /\
  items (snd second) = items w.
Proof.
  intros Hid Hfind Hactive first second. subst first second.
  rewrite !(validateDiscountCode_accepted _ id) by exact Hid.
  cbn [fst snd logged connected discountCodes orders items].
  rewrite Hfind, Hactive. repeat split; reflexivity.
Qed.

Lemma validateDiscountCode_idempotent_witness :
  let first := AdminController.validateDiscountCode Sample.promoCode Sample.promoShop in
  let second := AdminController.validateDiscountCode Sample.promoCode (snd first) in
  fst first
  = Fulfilled (AdminController.mkValidation true (Some (Js.Number (Js.Fin 10)))) /\
  fst second = fst first /\
  discountCodes (snd second) = [Sample.promo] /\
  orders (snd second) = [] /\
  items (snd second) = [Sample.pen].
Proof.
  apply (validateDiscountCode_idempotent Sample.promoCode 4095%N Sample.promo
           Sample.promoShop); reflexivity.
Defined.

(** ** Admin aggregation *)

(** C10.  With the admin flag false or absent, each of the four aggregation
    middlewares answers with the error response and leaves the world as it
    found it: in particular no store access is issued. *)
Theorem aggregation_refuses_non_admin req w :
  userIsAdmin req = Some false \/ userIsAdmin req = None ->
  AdminController.getItemsPurchasedList req w
  = (Responded INTERNAL_SERVER_ERROR (ErrorJson INTERNAL_SERVER_ERROR_result), w) /\
  AdminController.getTotalPurchaseAmount req w
  = (Responded INTERNAL_SERVER_ERROR (ErrorJson INTERNAL_SERVER_ERROR_result), w) /\
  AdminController.getDiscountCodesList req w
  = (Responded INTERNAL_SERVER_ERROR (ErrorJson INTERNAL_SERVER_ERROR_result), w) /\
  AdminController.getTotalDiscountAmount req w
  = (Responded INTERNAL_SERVER_ERROR (ErrorJson INTERNAL_SERVER_ERROR_result), w).
Proof.
  intros Hflag.
  assert (Hnot : notAdmin req = true).
  { unfold notAdmin. destruct Hflag as [-> | ->]; reflexivity. }
  unfold AdminController.getItemsPurchasedList, AdminController.getTotalPurchaseAmount,
    AdminController.getDiscountCodesList, AdminController.getTotalDiscountAmount.
  rewrite Hnot. repeat split; reflexivity.
Qed.

Lemma aggregation_refuses_non_admin_witness :
  AdminController.getItemsPurchasedList Sample.visitor Sample.shop
  = (Responded INTERNAL_SERVER_ERROR (ErrorJson INTERNAL_SERVER_ERROR_result), Sample.shop) /\
  AdminController.getTotalPurchaseAmount Sample.visitor Sample.shop
  = (Responded INTERNAL_SERVER_ERROR (ErrorJson INTERNAL_SERVER_ERROR_result), Sample.shop) /\
  AdminController.getDiscountCodesList Sample.visitor Sample.shop
  = (Responded INTERNAL_SERVER_ERROR (ErrorJson INTERNAL_SERVER_ERROR_result), Sample.shop) /\
  AdminController.getTotalDiscountAmount Sample.visitor Sample.shop
  = (Responded INTERNAL_SERVER_ERROR (ErrorJson INTERNAL_SERVER_ERROR_result), Sample.shop).
Proof.
  apply (aggregation_refuses_non_admin Sample.visitor Sample.shop).
  right. reflexivity.
Defined.

Lemma fold_left_sum values acc :
  (fold_left (fun acc v => match v with Some x => acc + x | None => acc end) values acc
   == acc + total (present values))%Q.
Proof.
  revert acc. induction values as [|[x|] values IH]; intros acc; simpl.
  - ring.
  - rewrite IH. ring.
  - apply IH.
Qed.

Lemma groupSum_row v values :
  exists t, groupSum (v :: values) = [Some t] /\ (t == total (present (v :: values)))%Q.
Proof.
  eexists. split.
  - reflexivity.
  - rewrite fold_left_sum. ring.
Qed.

Lemma present_map_Some {A} (f : A -> Q) l :
  present (map (fun a => Some (f a)) l) = map f l.
Proof.
  induction l as [|a l IH]; simpl; [reflexivity | now rewrite IH].
Qed.

(** The callback of the two totals, case by case. *)
Lemma totalCallback_policy missing respond rest :
  AdminController.totalCallback missing respond None [] = Uncaught (Js.Error missing) /\
  AdminController.totalCallback missing respond None (None :: rest)
  = Uncaught (Js.Error missing) /\
  (forall t, (t == 0)%Q ->
     AdminController.totalCallback missing respond None (Some t :: rest)
     = Uncaught (Js.Error missing)) /\
  (forall t, ~ (t == 0)%Q ->
     AdminController.totalCallback missing respond None (Some t :: rest)
     = Responded OK (respond t)).
Proof.
  repeat split; try reflexivity; intros t Ht; simpl.
  - apply Qeq_bool_iff in Ht. rewrite Ht. reflexivity.
  - destruct (Qeq_bool t 0) eqn:E; [|reflexivity].
    apply Qeq_bool_iff in E. contradiction.
Qed.

(** C6.  When the aggregate result is empty or its total is zero, neither
    total fails with an error outcome.  For an admin caller and a connected
    storage the callback of [toArray] throws its missing-data Error after
    the [try] of the middleware has returned, so the error is uncaught: no
    response is sent, not even the 500 of the [catch] block that the
    listings send through their [.catch].  The claim requires a failure
    delivered to the caller. *)
Theorem totals_throw_outside_try req w :
  userIsAdmin req = Some true ->
  connected w = true ->
  (orders w = [] \/
   (total (map OrderSchema.orderValueInPaiseAfterDiscount (orders w)) == 0)%Q ->
   fst (AdminController.getTotalPurchaseAmount req w)
   = Uncaught (Js.Error "Result missing total purchase amount")) /\
  (discountCodes w = [] \/
   (total (present (map DiscountCodeSchema.discountAmount (discountCodes w))) == 0)%Q ->
   fst (AdminController.getTotalDiscountAmount req w)
   = Uncaught (Js.Error "Result missing total discount amount")).
Proof.
  intros Hadmin Hup.
  assert (Hnot : notAdmin req = false) by (unfold notAdmin; now rewrite Hadmin).
  split.
  - intros Hcase.
    unfold AdminController.getTotalPurchaseAmount, Order.aggregateToArray, query.
    rewrite Hnot, Hup. cbn [fst].
    destruct (orders w) as [|o os] eqn:Eo; [reflexivity|].
    destruct Hcase as [Hnil | Hzero]; [discriminate|].
    cbn [map].
    destruct (groupSum_row (Some (OrderSchema.orderValueInPaiseAfterDiscount o))
                (map (fun o => Some (OrderSchema.orderValueInPaiseAfterDiscount o)) os))
      as (t & -> & Ht).
    apply totalCallback_policy.
    rewrite Ht, <- Hzero.
    change (Some (OrderSchema.orderValueInPaiseAfterDiscount o)
            :: map (fun o => Some (OrderSchema.orderValueInPaiseAfterDiscount o)) os)
      with (map (fun o => Some (OrderSchema.orderValueInPaiseAfterDiscount o)) (o :: os)).
    rewrite present_map_Some. reflexivity.
  - intros Hcase.
    unfold AdminController.getTotalDiscountAmount, DiscountCode.aggregateToArray, query.
    rewrite Hnot, Hup. cbn [fst].
    destruct (discountCodes w) as [|c cs] eqn:Ec; [reflexivity|].
    destruct Hcase as [Hnil | Hzero]; [discriminate|].
    cbn [map] in *.
    destruct (groupSum_row (DiscountCodeSchema.discountAmount c)
                (map DiscountCodeSchema.discountAmount cs)) as (t & -> & Ht).
    apply totalCallback_policy. rewrite Ht. exact Hzero.
Qed.

Lemma totals_throw_outside_try_witness :
  fst (AdminController.getTotalPurchaseAmount Sample.admin Sample.shop)
  = Uncaught (Js.Error "Result missing total purchase amount") /\
  fst (AdminController.getTotalDiscountAmount Sample.admin Sample.shop)
  = Uncaught (Js.Error "Result missing total discount amount").
Proof.
  destruct (totals_throw_outside_try Sample.admin Sample.shop eq_refl eq_refl)
    as [Hpaid Hdiscounted].
  split; [apply Hpaid | apply Hdiscounted]; left; reflexivity.
Defined.

(** ** Numbers *)

(** With a period that is the positive integer [N], the test of line 77 is
    divisibility of the order's position by [N]. *)
Lemma eligible_integer_period env N count :
  isInteger (Js.ToNumber (OrderController.NTH_ORDER_COUNT env)) N ->
  0 < N ->
  OrderController.eligible env count = ((count + 1) mod N =? 0).
Proof.
  unfold OrderController.eligible, isInteger.
  destruct (Js.ToNumber (OrderController.NTH_ORDER_COUNT env)) as [| |y];
    try contradiction.
  intros Hy HN. set (m := count + 1).
  unfold Js.remainder.
  assert (Hy0 : Qeq_bool y 0 = false).
  { destruct (Qeq_bool y 0) eqn:E; [|reflexivity].
    apply Qeq_bool_iff in E. rewrite Hy in E.
    apply (inject_Z_injective N 0) in E. lia. }
  rewrite Hy0.
  destruct (Qeq_bool (inject_Z m) 0) eqn:Em.
  - cbn [Js.looselyEqualsZero]. rewrite Em.
    apply Qeq_bool_iff in Em. apply (inject_Z_injective m 0) in Em.
    rewrite Em. rewrite Z.mod_0_l by lia. reflexivity.
  - cbn [Js.looselyEqualsZero].
    assert (Hq : Z.quot (Qnum (inject_Z m) * QDen y) (Qnum y * QDen (inject_Z m))
                 = Z.quot m N).
    { unfold Qeq in Hy. cbn in Hy |- *.
      rewrite Z.mul_1_r in Hy |- *. rewrite Hy.
      apply Z.quot_mul_cancel_r; lia. }
    rewrite Hq.
    assert (Hr : (inject_Z m - y * inject_Z (Z.quot m N) == inject_Z (Z.rem m N))%Q).
    { rewrite Hy, <- inject_Z_mult.
      unfold Qminus. rewrite <- inject_Z_opp, <- inject_Z_plus.
      apply inject_Z_injective.
      pose proof (Z.quot_rem' m N). lia. }
    destruct (Z.eqb_spec (m mod N) 0) as [E|E].
    + apply Qeq_bool_iff. rewrite Hr.
      apply Z.rem_mod_eq_0 in E; [|lia]. rewrite E. reflexivity.
    + destruct (Qeq_bool (inject_Z m - y * inject_Z (Z.quot m N)) 0) eqn:Eb;
        [|reflexivity].
      exfalso. apply E. apply Z.rem_mod_eq_0; [lia|].
      apply Qeq_bool_iff in Eb. rewrite Hr in Eb.
      apply (inject_Z_injective _ 0). exact Eb.
Qed.

(** With no period, or one that is not numeric, the test never holds. *)
Lemma eligible_no_period env count :
  Js.ToNumber (OrderController.NTH_ORDER_COUNT env) = Js.NaN ->
  OrderController.eligible env count = false.
Proof.
  intros Hnan. unfold OrderController.eligible. rewrite Hnan. reflexivity.
Qed.

(** ** Order creation: the price loop *)

Lemma priceLine_throws dbItemsList l item :
  exists e, OrderController.priceLine dbItemsList l item = Js.Throw e.
Proof.
  unfold OrderController.priceLine, OrderController.itemQty_identifier.
  destruct (List.find _ dbItemsList) as [dbItem|]; [|eauto].
  destruct (Item.availableQty dbItem <? Line.itemQty item); eauto.
Qed.

Lemma forEach_priceLine_throws dbItemsList lines l :
  lines <> [] ->
  exists e,
    OrderController.forEach (OrderController.priceLine dbItemsList) lines l = Js.Throw e.
Proof.
  destruct lines as [|item rest]; [contradiction|]. intros _. simpl.
  destruct (priceLine_throws dbItemsList l item) as [e ->]. eauto.
Qed.

(** The first callback never fulfils for a non-empty list. *)
Lemma priceItems_rejects lines l dbItemsList w :
  lines <> [] ->
  exists e, OrderController.priceItems lines l dbItemsList w = (Rejected e, w).
Proof.
  intros Hlines. unfold OrderController.priceItems.
  destruct dbItemsList as [|row rows]; [eexists; reflexivity|].
  destruct (forEach_priceLine_throws (row :: rows) lines l Hlines) as [e ->].
  eexists. reflexivity.
Qed.

(** A line without [_id] finds no catalog row. *)
Lemma find_row_without_id (dbItemsList : list Item.row) :
  List.find (fun dbItem => Bson.equals (Item._id dbItem) None) dbItemsList = None.
Proof.
  induction dbItemsList as [|row rows IH]; simpl; [reflexivity | exact IH].
Qed.

(** A non-empty request ends in an unhandled rejection, after the catalog
    query and nothing else. *)
Lemma createNewOrder_nonempty generateInvoice env req line rest w :
  itemsList req = Some (line :: rest) ->
  exists e,
    OrderController.createNewOrder generateInvoice env req w
    = (UnhandledRejection e, logged (Query Items) (snd (generateObjectId w))).
Proof.
  intros Hreq.
  unfold OrderController.createNewOrder, generateObjectId. rewrite Hreq.
  unfold andThen at 1. unfold Item.aggregate, query at 1.
  cbn [connected snd].
  destruct (connected w) eqn:Hup.
  - match goal with
    | |- context [OrderController.priceItems ?ls ?l ?db] =>
        destruct (priceItems_rejects ls l db
                    (logged (Query Items)
                       (mkWorld (items w) (orders w) (discountCodes w) true
                                (N.succ (nextObjectId w)) (clock w) (accesses w))))
          as [e He]; [discriminate|]
    end.
    unfold andThen at 1. rewrite He. eexists. reflexivity.
  - eexists. reflexivity.
Qed.

(** Whatever the request, the outcome is a rejection or a refusal, and the
    orders and discount codes are as before. *)
Lemma createNewOrder_stores_nothing generateInvoice env req w :
  (exists e,
      fst (OrderController.createNewOrder generateInvoice env req w)
      = UnhandledRejection e \/
      fst (OrderController.createNewOrder generateInvoice env req w)
      = Responded INTERNAL_SERVER_ERROR (ErrorJson (Caught e))) /\
  orders (snd (OrderController.createNewOrder generateInvoice env req w)) = orders w /\
  discountCodes (snd (OrderController.createNewOrder generateInvoice env req w))
  = discountCodes w.
Proof.
  destruct (itemsList req) as [[|line rest]|] eqn:Hreq.
  - unfold OrderController.createNewOrder, generateObjectId. rewrite Hreq.
    cbn. split; [eexists; right; reflexivity | split; reflexivity].
  - destruct (createNewOrder_nonempty generateInvoice env req line rest w Hreq)
      as [e ->].
    cbn. split; [eexists; left; reflexivity | split; reflexivity].
  - unfold OrderController.createNewOrder, generateObjectId. rewrite Hreq.
    cbn. split; [eexists; right; reflexivity | split; reflexivity].
Qed.

(** C1.  [createNewOrder] computes no order total.  For every request, and
    so for every non-empty list whose lines all have a catalog row with
    enough stock, the chain is rejected unhandled or the request is refused
    (an empty list); the price loop throws at its first line.  No response
    carries a total, and no order or discount code is stored.  The claim
    requires the sum of [priceInPaise * itemQty]. *)
Theorem createNewOrder_never_prices generateInvoice env req w :
  (exists e,
      fst (OrderController.createNewOrder generateInvoice env req w)
      = UnhandledRejection e \/
      fst (OrderController.createNewOrder generateInvoice env req w)
      = Responded INTERNAL_SERVER_ERROR (ErrorJson (Caught e))) /\
  orders (snd (OrderController.createNewOrder generateInvoice env req w)) = orders w /\
  discountCodes (snd (OrderController.createNewOrder generateInvoice env req w))
  = discountCodes w.
Proof.
  apply createNewOrder_stores_nothing.
Qed.

(** C4.  For a non-empty request in the documented format (lines carry
    [itemId] and [itemQty], no [_id]) the failure is never the stock error:
    the chain is rejected with the storage error, with "Items not found"
    when no requested id is in the catalog, and otherwise with the TypeError
    of reading [priceInPaise] of undefined, whatever the quantities.  No
    order is stored.  The claim requires the stock error naming the item and
    the available quantity. *)
Theorem createNewOrder_documented_lines generateInvoice env req lines w :
  itemsList req = Some lines ->
  lines <> [] ->
  (forall line, In line lines -> Line._id line = None) ->
  fst (OrderController.createNewOrder generateInvoice env req w)
  = UnhandledRejection
      (if connected w then
         match filter (fun d => existsb (N.eqb (ItemSchema._id d))
                                        (map Line.itemId lines)) (items w) with
         | [] => Js.Error "Items not found"
         | _ => Js.TypeError
                  "Cannot read properties of undefined (reading 'priceInPaise')"
         end
       else unavailable) /\
  orders (snd (OrderController.createNewOrder generateInvoice env req w)) = orders w.
Proof.
  intros Hreq Hlines Hformat.
  split; [|apply createNewOrder_stores_nothing].
  unfold OrderController.createNewOrder, generateObjectId. rewrite Hreq.
  destruct lines as [|line rest]; [contradiction|].
  unfold andThen at 1. unfold Item.aggregate, query at 1.
  cbn [connected items].
  destruct (connected w); [|reflexivity].
  destruct (filter _ (items w)) as [|d ds]; [reflexivity|].
  unfold andThen at 1. unfold OrderController.priceItems.
  cbn [map OrderController.forEach]. unfold OrderController.priceLine.
  rewrite (Hformat line) by (left; reflexivity).
  rewrite find_row_without_id. reflexivity.
Qed.

Lemma createNewOrder_documented_lines_witness :
  fst (OrderController.createNewOrder Sample.invoice Sample.everyFifth
         (Sample.buyPens 7) Sample.shop)
  = UnhandledRejection
      (Js.TypeError "Cannot read properties of undefined (reading 'priceInPaise')") /\
  orders (snd (OrderController.createNewOrder Sample.invoice Sample.everyFifth
                 (Sample.buyPens 7) Sample.shop)) = [].
Proof.
  apply (createNewOrder_documented_lines Sample.invoice Sample.everyFifth
           (Sample.buyPens 7) [Line.mk None 1%N 7] Sample.shop).
  - reflexivity.
  - discriminate.
  - intros line [<- | []]. reflexivity.
Defined.

(** The stock error is reachable only by a line that carries [_id]. *)
Example createNewOrder_stock_error_with_id :
  fst (OrderController.createNewOrder Sample.invoice Sample.everyFifth
         (mkRequest Sample.customer None (Some [Line.mk (Some 1%N) 1%N 7]))
         Sample.shop)
  = UnhandledRejection (Js.Error "Only 5 units of Pen are left").
Proof. reflexivity. Qed.

(** Enough stock and a line that carries [_id]: the free identifier. *)
Example createNewOrder_free_identifier :
  fst (OrderController.createNewOrder Sample.invoice Sample.everyFifth
         (mkRequest Sample.customer None (Some [Line.mk (Some 1%N) 1%N 2]))
         Sample.shop)
  = UnhandledRejection (Js.ReferenceError "itemQty is not defined").
Proof. reflexivity. Qed.

(** ** Order creation: the discount *)

(** The second callback at an eligible position, storage connected. *)
Lemma applyDiscount_eligible env l count w :
  OrderController.eligible env count = true ->
  connected w = true ->
  let before := OrderController.orderValueInPaiseBeforeDiscount l in
  let amount := Js.multiply Js.tenth before in
  OrderController.applyDiscount env (l, count) w
  = (Fulfilled
       (OrderController.mkLocals before (Js.subtract before amount) amount
          (OrderController.orderId l),
        Some (Bson.toString (nextObjectId w))),
     logged (Insert DiscountCodes)
       (mkWorld (items w) (orders w)
          (discountCodes w
           ++ [DiscountCodeSchema.mk (nextObjectId w)
                 (Js.ObjectIdValue (OrderController.orderId l)) ACTIVE None])
          (connected w) (N.succ (nextObjectId w)) (clock w) (accesses w))).
Proof.
  intros Helig Hup before amount.
  unfold OrderController.applyDiscount. rewrite Helig.
  unfold andThen at 1.
  unfold AdminController.createDiscountCodeHelper, generateObjectId,
    DiscountCode.save, andThen, insert, resolve.
  cbn. rewrite Hup. reflexivity.
Qed.

(** The third callback, storage connected and a well-formed user id. *)
Lemma saveOrder_connected req requested l code user w :
  connected w = true ->
  Bson.fromString (userId req) = Js.Normal user ->
  let after := Js.toFixed2 (OrderController.orderValueInPaiseAfterDiscount l) in
  let before := Js.toFixed2 (OrderController.orderValueInPaiseBeforeDiscount l) in
  OrderController.saveOrder req requested (l, code) w
  = (Fulfilled (after, OrderController.discountAmount l),
     logged (Insert Orders)
       (mkWorld (items w)
          (orders w
           ++ [OrderSchema.mk (OrderController.orderId l) user CREATED (clock w)
                 requested (Js.fixedValue after) (Js.fixedValue before)
                 (OrderController.discountAmount l) code])
          (discountCodes w) (connected w) (nextObjectId w) (clock w) (accesses w))).
Proof.
  intros Hup Huser after before.
  unfold OrderController.saveOrder. rewrite Huser.
  unfold Order.save, andThen, insert, resolve.
  rewrite Hup. reflexivity.
Qed.

(** C2.  For an order at an eligible position the helper is called with the
    order id, 10 and the discount amount, but it binds only its first
    parameter: the stored code is ACTIVE with the order id as its
    [discountPercent], and carries neither the percent 10, nor the discount
    amount, nor a reference to the order.  The claim requires a code that
    carries all three. *)
Theorem applyDiscount_stores_order_id_as_percent env l count w :
  OrderController.eligible env count = true ->
  connected w = true ->
  exists l' w',
    OrderController.applyDiscount env (l, count) w
    = (Fulfilled (l', Some (Bson.toString (nextObjectId w))), w') /\
    discountCodes w'
    = (discountCodes w
       ++ [DiscountCodeSchema.mk (nextObjectId w)
             (Js.ObjectIdValue (OrderController.orderId l)) ACTIVE None])%list.
Proof.
  intros Helig Hup.
  rewrite (applyDiscount_eligible env l count w Helig Hup).
  eexists. eexists. split; reflexivity.
Qed.

Lemma applyDiscount_stores_order_id_as_percent_witness :
  exists l' w',
    OrderController.applyDiscount Sample.everyFifth
      (OrderController.mkLocals 1000 0 0 4242%N, 4) Sample.shop
    = (Fulfilled (l', Some "000000000000000000001000"), w') /\
    discountCodes w'
    = [DiscountCodeSchema.mk 4096%N (Js.ObjectIdValue 4242%N) ACTIVE None].
Proof.
  apply (applyDiscount_stores_order_id_as_percent Sample.everyFifth
           (OrderController.mkLocals 1000 0 0 4242%N) 4 Sample.shop);
    reflexivity.
Defined.

(** C9.  With [NTH_ORDER_COUNT] absent or not numeric the test of line 77
    holds for no order: the discount amount stays 0, the total after
    discount is the total before it, and the callback leaves the world
    untouched, so no discount code is issued. *)
Theorem no_period_no_discount env before orderId count w :
  OrderController.NTH_ORDER_COUNT env = None \/
  (exists s, OrderController.NTH_ORDER_COUNT env = Some s /\
             Js.StringToNumber s = Js.NaN) ->
  OrderController.eligible env count = false /\
  OrderController.applyDiscount env
    (OrderController.mkLocals before 0 0 orderId, count) w
  = (Fulfilled (OrderController.mkLocals before before 0 orderId, None), w).
Proof.
  intros Hperiod.
  assert (Hnan : Js.ToNumber (OrderController.NTH_ORDER_COUNT env) = Js.NaN).
  { destruct Hperiod as [-> | (s & -> & Hs)]; [reflexivity | exact Hs]. }
  pose proof (eligible_no_period env count Hnan) as Hno.
  split; [exact Hno|].
  unfold OrderController.applyDiscount. rewrite Hno. reflexivity.
Qed.

Lemma no_period_no_discount_witness :
  OrderController.eligible (OrderController.mkEnv (Some "five")) 4 = false /\
  OrderController.applyDiscount (OrderController.mkEnv (Some "five"))
    (OrderController.mkLocals 1000 0 0 4242%N, 4) Sample.shop
  = (Fulfilled (OrderController.mkLocals 1000 1000 0 4242%N, None), Sample.shop).
Proof.
  apply (no_period_no_discount (OrderController.mkEnv (Some "five")) 1000 4242%N 4
           Sample.shop).
  right. exists "five". split; reflexivity.
Defined.

Example no_period_absent :
  OrderController.applyDiscount Sample.notConfigured
    (OrderController.mkLocals 1000 0 0 4242%N, 4) Sample.shop
  = (Fulfilled (OrderController.mkLocals 1000 1000 0 4242%N, None), Sample.shop).
Proof. reflexivity. Qed.

(** The discount of three paise is not three tenths of a paisa. *)
Example discount_of_three_paise :
  Js.multiply Js.tenth 3 = (1351079888211149 # 4503599627370496)%Q /\
  ~ (Js.multiply Js.tenth 3 == 3 # 10)%Q.
Proof.
  split; [vm_compute; reflexivity |].
  intros H. vm_compute in H. discriminate H.
Qed.

(** C3.  [createNewOrder] applies no discount.  At a position the period
    makes eligible, as at every other, a non-empty request ends in the
    unhandled rejection of the first callback, after the catalog query and
    nothing else: the orders are not counted, no discount amount is
    computed, no discount code is issued and no Order is persisted.  The
    claim requires, at such a position, a discount of 10% and a persisted
    Order whose totals differ by it. *)
Theorem createNewOrder_applies_no_discount generateInvoice env req lines w :
  itemsList req = Some lines ->
  lines <> [] ->
  OrderController.eligible env (Z.of_nat (List.length (orders w))) = true ->
  (exists e, fst (OrderController.createNewOrder generateInvoice env req w)
             = UnhandledRejection e) /\
  accesses (snd (OrderController.createNewOrder generateInvoice env req w))
  = Query Items :: accesses w /\
  discountCodes (snd (OrderController.createNewOrder generateInvoice env req w))
  = discountCodes w /\
  orders (snd (OrderController.createNewOrder generateInvoice env req w)) = orders w.
Proof.
  intros Hreq Hlines _.
  destruct lines as [|line rest]; [contradiction|].
  destruct (createNewOrder_nonempty generateInvoice env req line rest w Hreq)
    as [e ->].
  cbn. repeat split; try reflexivity. exists e. reflexivity.
Qed.

Lemma createNewOrder_applies_no_discount_witness :
  (exists e, fst (OrderController.createNewOrder Sample.invoice Sample.everyFifth
                    (Sample.buyPens 2) Sample.fifthOrderShop)
             = UnhandledRejection e) /\
  accesses (snd (OrderController.createNewOrder Sample.invoice Sample.everyFifth
                   (Sample.buyPens 2) Sample.fifthOrderShop))
  = [Query Items] /\
  discountCodes (snd (OrderController.createNewOrder Sample.invoice Sample.everyFifth
                        (Sample.buyPens 2) Sample.fifthOrderShop))
  = [] /\
  orders (snd (OrderController.createNewOrder Sample.invoice Sample.everyFifth
                 (Sample.buyPens 2) Sample.fifthOrderShop))
  = orders Sample.fifthOrderShop.
Proof.
  apply (createNewOrder_applies_no_discount Sample.invoice Sample.everyFifth
           (Sample.buyPens 2) [Line.mk None 1%N 2] Sample.fifthOrderShop).
  - reflexivity.
  - discriminate.
  - reflexivity.
Defined.

(* ================================================================== *)
(** * Further properties *)

(** ** The discount code registry *)

(** What the helper does, by the state of the storage. *)
Lemma createDiscountCodeHelper_run arguments w :
  let percent :=
    match arguments with
    | [] => Js.Number (Js.Fin 10)
    | Js.Undefined :: _ => Js.Number (Js.Fin 10)
    | v :: _ => v
    end in
  AdminController.createDiscountCodeHelper arguments w
  = if connected w then
      (Fulfilled (Bson.toString (nextObjectId w)),
       logged (Insert DiscountCodes)
         (mkWorld (items w) (orders w)
            (discountCodes w
             ++ [DiscountCodeSchema.mk (nextObjectId w) percent ACTIVE None])
            (connected w) (N.succ (nextObjectId w)) (clock w) (accesses w)))
    else
      (Rejected unavailable,
       logged (Insert DiscountCodes)
         (mkWorld (items w) (orders w) (discountCodes w) (connected w)
            (N.succ (nextObjectId w)) (clock w) (accesses w))).
Proof.
  intros percent.
  unfold AdminController.createDiscountCodeHelper, generateObjectId,
    DiscountCode.save, andThen, insert, resolve.
  cbn. destruct (connected w); reflexivity.
Qed.

(** X1.  For an admin caller and a connected storage, [createDiscountCode]
    stores exactly one new code, ACTIVE, of 10 percent and without amount,
    under the generated id, keeps every code that was there, and hands the
    hex form of that id to the next middleware. *)
Theorem createDiscountCode_issues_default req w :
  userIsAdmin req = Some true ->
  connected w = true ->
  fst (AdminController.createDiscountCode req w)
  = Next (Bson.toString (nextObjectId w)) /\
  discountCodes (snd (AdminController.createDiscountCode req w))
  = (discountCodes w
     ++ [DiscountCodeSchema.mk (nextObjectId w) (Js.Number (Js.Fin 10)) ACTIVE None])%list /\
  orders (snd (AdminController.createDiscountCode req w)) = orders w /\
  items (snd (AdminController.createDiscountCode req w)) = items w.
Proof.
  intros Hadmin Hup.
  unfold AdminController.createDiscountCode, notAdmin. rewrite Hadmin.
  rewrite createDiscountCodeHelper_run, Hup. cbn. repeat split; reflexivity.
Qed.

Lemma createDiscountCode_issues_default_witness :
  fst (AdminController.createDiscountCode Sample.admin Sample.shop)
  = Next "000000000000000000001000" /\
  discountCodes (snd (AdminController.createDiscountCode Sample.admin Sample.shop))
  = [DiscountCodeSchema.mk 4096%N (Js.Number (Js.Fin 10)) ACTIVE None] /\
  orders (snd (AdminController.createDiscountCode Sample.admin Sample.shop)) = [] /\
  items (snd (AdminController.createDiscountCode Sample.admin Sample.shop))
  = [Sample.pen].
Proof.
  apply (createDiscountCode_issues_default Sample.admin Sample.shop); reflexivity.
Defined.

(** X2.  [createDiscountCode] answers 500 and stores no code when the
    caller is not an admin or the storage is unreachable; a caller who is
    not an admin does not even reach the storage or the id generator. *)
Theorem createDiscountCode_refuses req w :
  notAdmin req = true \/ connected w = false ->
  fst (AdminController.createDiscountCode req w)
  = Responded INTERNAL_SERVER_ERROR (ErrorJson INTERNAL_SERVER_ERROR_result) /\
  discountCodes (snd (AdminController.createDiscountCode req w)) = discountCodes w /\
  (notAdmin req = true -> snd (AdminController.createDiscountCode req w) = w).
Proof.
  intros Hcase. unfold AdminController.createDiscountCode.
  destruct (notAdmin req) eqn:Hnot.
  - repeat split; reflexivity.
  - destruct Hcase as [Hcase | Hdown]; [discriminate|].
    rewrite createDiscountCodeHelper_run, Hdown. cbn.
    repeat split; try reflexivity. discriminate.
Qed.

Lemma createDiscountCode_refuses_witness :
  fst (AdminController.createDiscountCode Sample.admin Sample.closedShop)
  = Responded INTERNAL_SERVER_ERROR (ErrorJson INTERNAL_SERVER_ERROR_result) /\
  discountCodes (snd (AdminController.createDiscountCode Sample.admin Sample.closedShop))
  = [] /\
  (notAdmin Sample.admin = true ->
   snd (AdminController.createDiscountCode Sample.admin Sample.closedShop)
   = Sample.closedShop).
Proof.
  apply (createDiscountCode_refuses Sample.admin Sample.closedShop).
  right. reflexivity.
Defined.

(** X3.  The code an admin obtains from [createDiscountCode] validates at
    once as [{validCode: true, discountPercent: 10}], when the storage is
    connected and the generated id is fresh. *)
Theorem createDiscountCode_then_validate req w :
  userIsAdmin req = Some true ->
  connected w = true ->
  freshCodeId w ->
  exists code,
    fst (AdminController.createDiscountCode req w) = Next code /\
    fst (AdminController.validateDiscountCode code
           (snd (AdminController.createDiscountCode req w)))
    = Fulfilled (AdminController.mkValidation true (Some (Js.Number (Js.Fin 10)))).
Proof.
  intros Hadmin Hup [Hwf Hfresh].
  exists (Bson.toString (nextObjectId w)).
  unfold AdminController.createDiscountCode, notAdmin. rewrite Hadmin.
  rewrite createDiscountCodeHelper_run, Hup. cbn [fst snd].
  split; [reflexivity|].
  rewrite (validateDiscountCode_accepted _ (nextObjectId w))
    by (apply fromString_toString; exact Hwf).
  cbn. rewrite find_app_fresh by (reflexivity || exact Hfresh).
  reflexivity.
Qed.

Lemma createDiscountCode_then_validate_witness :
  exists code,
    fst (AdminController.createDiscountCode Sample.admin Sample.promoShop) = Next code /\
    fst (AdminController.validateDiscountCode code
           (snd (AdminController.createDiscountCode Sample.admin Sample.promoShop)))
    = Fulfilled (AdminController.mkValidation true (Some (Js.Number (Js.Fin 10)))).
Proof.
  apply (createDiscountCode_then_validate Sample.admin Sample.promoShop).
  - reflexivity.
  - reflexivity.
  - split.
    + unfold Bson.wellFormed. reflexivity.
    + simpl. intros d [<- | []]. discriminate.
Defined.

(** X4.  For a code string the ObjectId constructor accepts,
    [validateDiscountCode] always fulfils; the code is valid exactly when
    the storage answers and the first stored code with that id is ACTIVE,
    and the percent is returned for a valid code only. *)
Theorem validateDiscountCode_verdict code id w :
  Bson.fromString code = Js.Normal id ->
  exists v,
    fst (AdminController.validateDiscountCode code w) = Fulfilled v /\
    (AdminController.validCode v = true <->
     connected w = true /\
     exists d, List.find (fun c => N.eqb (DiscountCodeSchema._id c) id)
                         (discountCodes w) = Some d /\
               DiscountCodeSchema.status d = ACTIVE) /\
    (AdminController.validCode v = false -> AdminController.discountPercent v = None) /\
    (forall d, List.find (fun c => N.eqb (DiscountCodeSchema._id c) id)
                         (discountCodes w) = Some d ->
               AdminController.validCode v = true ->
               AdminController.discountPercent v
               = Some (DiscountCodeSchema.discountPercent d)).
Proof.
  intros Hid. rewrite (validateDiscountCode_accepted code id w Hid).
  eexists. split; [reflexivity|].
  destruct (connected w).
  - destruct (List.find _ (discountCodes w)) as [d|] eqn:Hfind.
    + destruct (DiscountCodeSchema.status d) eqn:Hstatus; cbn.
      * split; [split; [intros _; split; [reflexivity | exists d; auto]
                       | reflexivity]|].
        split; [discriminate|]. intros d' Hd' _. congruence.
      * split; [split; [discriminate | intros (_ & d' & Hd' & Hs); congruence]|].
        split; [reflexivity | discriminate].
      * split; [split; [discriminate | intros (_ & d' & Hd' & Hs); congruence]|].
        split; [reflexivity | discriminate].
    + cbn. split; [split; [discriminate | intros (_ & d' & Hd' & _); discriminate]|].
      split; [reflexivity | discriminate].
  - cbn. split; [split; [discriminate | intros (Hc & _); discriminate]|].
    split; [reflexivity | discriminate].
Qed.

Lemma validateDiscountCode_verdict_witness :
  exists v,
    fst (AdminController.validateDiscountCode Sample.promoCode Sample.promoShop)
    = Fulfilled v /\
    (AdminController.validCode v = true <->
     connected Sample.promoShop = true /\
     exists d, List.find (fun c => N.eqb (DiscountCodeSchema._id c) 4095%N)
                         (discountCodes Sample.promoShop) = Some d /\
               DiscountCodeSchema.status d = ACTIVE) /\
    (AdminController.validCode v = false -> AdminController.discountPercent v = None) /\
    (forall d, List.find (fun c => N.eqb (DiscountCodeSchema._id c) 4095%N)
                         (discountCodes Sample.promoShop) = Some d ->
               AdminController.validCode v = true ->
               AdminController.discountPercent v
               = Some (DiscountCodeSchema.discountPercent d)).
Proof.
  apply (validateDiscountCode_verdict Sample.promoCode 4095%N Sample.promoShop).
  reflexivity.
Defined.

Lemma upperChar_hex c :
  Bson.isHexChar c = true ->
  Js.digitValue 16 (upperChar c) = Js.digitValue 16 c.
Proof.
  destruct c as [[] [] [] [] [] [] [] []]; intros H;
    first [discriminate H | reflexivity].
Qed.

Lemma upperChar_hex_all cs :
  forallb Bson.isHexChar cs = true ->
  forallb Bson.isHexChar (map upperChar cs) = true /\
  forall acc, Js.digitsValue 16 acc (map upperChar cs) = Js.digitsValue 16 acc cs.
Proof.
  induction cs as [|c cs IH]; intros Hall; simpl in *.
  - split; reflexivity.
  - apply andb_true_iff in Hall. destruct Hall as [Hc Hcs].
    destruct (IH Hcs) as [IH1 IH2]. split.
    + unfold Bson.isHexChar at 1. rewrite (upperChar_hex c Hc).
      fold (Bson.isHexChar c). rewrite Hc, IH1. reflexivity.
    + intros acc. rewrite (upperChar_hex c Hc).
      destruct (Js.digitValue 16 c); [apply IH2 | reflexivity].
Qed.

(** A code of twenty-four hex characters denotes the same id in upper
    case. *)
Lemma fromString_toUpperCase code :
  String.length code = 24%nat ->
  forallb Bson.isHexChar (list_ascii_of_string code) = true ->
  Bson.fromString (toUpperCase code) = Bson.fromString code.
Proof.
  intros Hlen Hhex.
  assert (Hl : List.length (list_ascii_of_string code) = 24%nat).
  { rewrite <- Hlen. clear. induction code; simpl; congruence. }
  destruct (upperChar_hex_all _ Hhex) as [Hup Hval].
  unfold Bson.fromString, toUpperCase.
  rewrite list_ascii_of_string_of_list_ascii, length_map, Hl, Hup, Hhex, Hval.
  reflexivity.
Qed.

(** X5.  Validation does not depend on the case of a hex code: a code of
    twenty-four hex characters typed in upper case is validated exactly as
    the code itself. *)
Theorem validateDiscountCode_ignores_case code w :
  String.length code = 24%nat ->
  forallb Bson.isHexChar (list_ascii_of_string code) = true ->
  AdminController.validateDiscountCode (toUpperCase code) w
  = AdminController.validateDiscountCode code w.
Proof.
  intros Hlen Hhex. unfold AdminController.validateDiscountCode.
  rewrite (fromString_toUpperCase code Hlen Hhex). reflexivity.
Qed.

Lemma validateDiscountCode_ignores_case_witness :
  AdminController.validateDiscountCode "000000000000000000000FFF" Sample.promoShop
  = AdminController.validateDiscountCode Sample.promoCode Sample.promoShop.
Proof.
  apply (validateDiscountCode_ignores_case Sample.promoCode Sample.promoShop);
    reflexivity.
Defined.

Lemma toString_injective a b :
  Bson.wellFormed a -> Bson.wellFormed b ->
  Bson.toString a = Bson.toString b -> a = b.
Proof.
  intros Ha Hb Heq.
  pose proof (fromString_toString a Ha) as Ea.
  rewrite Heq, (fromString_toString b Hb) in Ea.
  congruence.
Qed.

(** X6.  Two codes issued one after the other are different strings, for
    any arguments, when the storage is connected and the generator stays
    within the twelve bytes of an id. *)
Theorem successive_codes_differ arguments1 arguments2 w :
  connected w = true ->
  Bson.wellFormed (N.succ (nextObjectId w)) ->
  exists code1 code2 w1 w2,
    AdminController.createDiscountCodeHelper arguments1 w = (Fulfilled code1, w1) /\
    AdminController.createDiscountCodeHelper arguments2 w1 = (Fulfilled code2, w2) /\
    code1 <> code2.
Proof.
  intros Hup Hwf.
  rewrite createDiscountCodeHelper_run, Hup.
  do 4 eexists. split; [reflexivity|].
  rewrite createDiscountCodeHelper_run. cbn [connected logged nextObjectId].
  split; [reflexivity|].
  intros Heq. apply toString_injective in Heq.
  - lia.
  - unfold Bson.wellFormed in *. lia.
  - exact Hwf.
Qed.

Lemma successive_codes_differ_witness :
  exists code1 code2 w1 w2,
    AdminController.createDiscountCodeHelper [] Sample.shop = (Fulfilled code1, w1) /\
    AdminController.createDiscountCodeHelper [Js.Number (Js.Fin 25)] w1
    = (Fulfilled code2, w2) /\
    code1 <> code2.
Proof.
  apply (successive_codes_differ [] [Js.Number (Js.Fin 25)] Sample.shop).
  - reflexivity.
  - unfold Bson.wellFormed. reflexivity.
Defined.

Lemma find_app_other id (d : DiscountCodeSchema.doc) codes :
  DiscountCodeSchema._id d <> id ->
  List.find (fun c => N.eqb (DiscountCodeSchema._id c) id) (codes ++ [d])
  = List.find (fun c => N.eqb (DiscountCodeSchema._id c) id) codes.
Proof.
  intros Hd. induction codes as [|c codes IH]; simpl.
  - destruct (N.eqb_spec (DiscountCodeSchema._id d) id); [contradiction | reflexivity].
  - destruct (N.eqb (DiscountCodeSchema._id c) id); [reflexivity | exact IH].
Qed.

(** X7.  Issuing a code leaves the verdict on every other code as it was:
    a code whose id is not the one being generated validates after the
    call as it did before, whatever the arguments and the state of the
    storage. *)
Theorem issuing_keeps_other_verdicts arguments code id w :
  Bson.fromString code = Js.Normal id ->
  id <> nextObjectId w ->
  fst (AdminController.validateDiscountCode code
         (snd (AdminController.createDiscountCodeHelper arguments w)))
  = fst (AdminController.validateDiscountCode code w).
Proof.
  intros Hid Hother.
  rewrite !(validateDiscountCode_accepted code id) by exact Hid.
  rewrite createDiscountCodeHelper_run.
  destruct (connected w) eqn:Hup; cbn.
  - rewrite find_app_other by (cbn; congruence). reflexivity.
  - reflexivity.
Qed.

Lemma issuing_keeps_other_verdicts_witness :
  fst (AdminController.validateDiscountCode Sample.promoCode
         (snd (AdminController.createDiscountCodeHelper [] Sample.promoShop)))
  = fst (AdminController.validateDiscountCode Sample.promoCode Sample.promoShop).
Proof.
  apply (issuing_keeps_other_verdicts [] Sample.promoCode 4095%N Sample.promoShop).
  - reflexivity.
  - discriminate.
Defined.

Lemma createDiscountCodeHelper_withoutAmounts arguments w :
  withoutAmounts w ->
  withoutAmounts (snd (AdminController.createDiscountCodeHelper arguments w)).
Proof.
  unfold withoutAmounts. intros Hw.
  rewrite createDiscountCodeHelper_run.
  destruct (connected w); cbn; [|exact Hw].
  apply Forall_app. split; [exact Hw|].
  constructor; [reflexivity | constructor].
Qed.

Lemma createDiscountCodeHelper_connected arguments w :
  connected (snd (AdminController.createDiscountCodeHelper arguments w)) = connected w.
Proof.
  rewrite createDiscountCodeHelper_run. destruct (connected w); reflexivity.
Qed.

Lemma issueAll_invariant calls w :
  withoutAmounts w ->
  withoutAmounts (issueAll calls w) /\
  connected (issueAll calls w) = connected w.
Proof.
  revert w. induction calls as [|arguments calls IH]; intros w Hw.
  - split; [exact Hw | reflexivity].
  - change (issueAll (arguments :: calls) w)
      with (issueAll calls
              (snd (AdminController.createDiscountCodeHelper arguments w))).
    destruct (IH _ (createDiscountCodeHelper_withoutAmounts arguments w Hw))
      as [H1 H2].
    split; [exact H1|]. rewrite H2. apply createDiscountCodeHelper_connected.
Qed.

Lemma total_present_none amounts :
  Forall (fun a => a = None) amounts -> present amounts = [].
Proof.
  induction 1 as [|a amounts Ha _ IH]; [reflexivity|]. subst a. exact IH.
Qed.

(** X8.  The helper never writes a [discountAmount].  So from a registry
    whose codes carry none, after any sequence of helper calls,
    [getTotalDiscountAmount] does not answer an admin with a total: it
    throws its missing-total error. *)
Theorem total_discount_missing_after_issuing calls req w :
  withoutAmounts w ->
  userIsAdmin req = Some true ->
  connected w = true ->
  withoutAmounts (issueAll calls w) /\
  fst (AdminController.getTotalDiscountAmount req (issueAll calls w))
  = Uncaught (Js.Error "Result missing total discount amount").
Proof.
  intros Hw Hadmin Hup.
  destruct (issueAll_invariant calls w Hw) as [Hafter Hconn].
  split; [exact Hafter|].
  unfold AdminController.getTotalDiscountAmount, notAdmin. rewrite Hadmin.
  unfold DiscountCode.aggregateToArray, query. rewrite Hconn, Hup.
  cbn [fst].
  unfold withoutAmounts in Hafter.
  destruct (discountCodes (issueAll calls w)) as [|c cs]; [reflexivity|].
  cbn [map].
  destruct (groupSum_row (DiscountCodeSchema.discountAmount c)
              (map DiscountCodeSchema.discountAmount cs)) as (t & -> & Ht).
  apply totalCallback_policy. rewrite Ht.
  rewrite (total_present_none (DiscountCodeSchema.discountAmount c
                               :: map DiscountCodeSchema.discountAmount cs)).
  - reflexivity.
  - change (Forall (fun a => a = None)
              (map DiscountCodeSchema.discountAmount (c :: cs))).
    apply Forall_map. exact Hafter.
Qed.

Lemma total_discount_missing_after_issuing_witness :
  withoutAmounts (issueAll [[]; [Js.Number (Js.Fin 25)]] Sample.promoShop) /\
  fst (AdminController.getTotalDiscountAmount Sample.admin
         (issueAll [[]; [Js.Number (Js.Fin 25)]] Sample.promoShop))
  = Uncaught (Js.Error "Result missing total discount amount").
Proof.
  apply (total_discount_missing_after_issuing [[]; [Js.Number (Js.Fin 25)]]
           Sample.admin Sample.promoShop).
  - repeat constructor.
  - reflexivity.
  - reflexivity.
Defined.

(** ** Admin aggregation, further *)

Lemma query_readsOnly {A} c (read : World -> A) w : readsOnly w (snd (query c read w)).
Proof.
  unfold query, readsOnly. destruct (connected w); cbn;
    repeat split; try reflexivity; right; exists c; reflexivity.
Qed.

Lemma readsOnly_refl w : readsOnly w w.
Proof. unfold readsOnly. repeat split; try reflexivity. left. reflexivity. Qed.

(** X9.  The four aggregation middlewares are read-only for every caller
    and every state of the storage: items, orders, discount codes and the
    id generator are left as found, and at most one query is issued. *)
Theorem aggregation_reads_only req w :
  readsOnly w (snd (AdminController.getItemsPurchasedList req w)) /\
  readsOnly w (snd (AdminController.getTotalPurchaseAmount req w)) /\
  readsOnly w (snd (AdminController.getDiscountCodesList req w)) /\
  readsOnly w (snd (AdminController.getTotalDiscountAmount req w)).
Proof.
  unfold AdminController.getItemsPurchasedList, AdminController.getTotalPurchaseAmount,
    AdminController.getDiscountCodesList, AdminController.getTotalDiscountAmount.
  destruct (notAdmin req);
    [split; [|split; [|split]]; apply readsOnly_refl|].
  split; [|split; [|split]].
  - pose proof (query_readsOnly Items
                  (fun w => map (fun d => (ItemSchema._id d, ItemSchema.itemName d,
                                           ItemSchema.purchasedCount d)) (items w)) w) as H.
    unfold Item.find. destruct (query Items _ w) as [[x|e] w']; exact H.
  - unfold Order.aggregateToArray.
    match goal with
    | |- context [query Orders ?r w] =>
        pose proof (query_readsOnly Orders r w) as H;
        destruct (query Orders r w) as [[x|e] w']; exact H
    end.
  - unfold DiscountCode.find.
    match goal with
    | |- context [query DiscountCodes ?r w] =>
        pose proof (query_readsOnly DiscountCodes r w) as H;
        destruct (query DiscountCodes r w) as [[x|e] w']; exact H
    end.
  - unfold DiscountCode.aggregateToArray.
    match goal with
    | |- context [query DiscountCodes ?r w] =>
        pose proof (query_readsOnly DiscountCodes r w) as H;
        destruct (query DiscountCodes r w) as [[x|e] w']; exact H
    end.
Qed.

(** X10.  When the storage is unreachable an admin gets the 500 response
    from the two listings, whose promise has a [.catch], but no response
    from the two totals: their callback throws the storage error outside
    the [try]. *)
Theorem aggregation_storage_failure req w :
  userIsAdmin req = Some true ->
  connected w = false ->
  fst (AdminController.getItemsPurchasedList req w)
  = Responded INTERNAL_SERVER_ERROR (ErrorJson INTERNAL_SERVER_ERROR_result) /\
  fst (AdminController.getDiscountCodesList req w)
  = Responded INTERNAL_SERVER_ERROR (ErrorJson INTERNAL_SERVER_ERROR_result) /\
  fst (AdminController.getTotalPurchaseAmount req w)
  = Uncaught (Js.Error "MongoError: storage unavailable") /\
  fst (AdminController.getTotalDiscountAmount req w)
  = Uncaught (Js.Error "MongoError: storage unavailable").
Proof.
  intros Hadmin Hdown.
  unfold AdminController.getItemsPurchasedList, AdminController.getTotalPurchaseAmount,
    AdminController.getDiscountCodesList, AdminController.getTotalDiscountAmount,
    notAdmin, Item.find, DiscountCode.find, Order.aggregateToArray,
    DiscountCode.aggregateToArray, query.
  rewrite Hadmin, Hdown. repeat split; reflexivity.
Qed.

Lemma aggregation_storage_failure_witness :
  fst (AdminController.getItemsPurchasedList Sample.admin Sample.closedShop)
  = Responded INTERNAL_SERVER_ERROR (ErrorJson INTERNAL_SERVER_ERROR_result) /\
  fst (AdminController.getDiscountCodesList Sample.admin Sample.closedShop)
  = Responded INTERNAL_SERVER_ERROR (ErrorJson INTERNAL_SERVER_ERROR_result) /\
  fst (AdminController.getTotalPurchaseAmount Sample.admin Sample.closedShop)
  = Uncaught (Js.Error "MongoError: storage unavailable") /\
  fst (AdminController.getTotalDiscountAmount Sample.admin Sample.closedShop)
  = Uncaught (Js.Error "MongoError: storage unavailable").
Proof.
  apply (aggregation_storage_failure Sample.admin Sample.closedShop); reflexivity.
Defined.

(** ** Order creation, further *)

(** X11.  The outcome of [createNewOrder] depends neither on the invoice
    collaborator nor on the configured period: the chain never gets as far
    as reading either. *)
Theorem createNewOrder_ignores_period_and_invoice
        generateInvoice generateInvoice' env env' req w :
  OrderController.createNewOrder generateInvoice env req w
  = OrderController.createNewOrder generateInvoice' env' req w.
Proof.
  unfold OrderController.createNewOrder, generateObjectId.
  destruct (itemsList req) as [[|line rest]|]; try reflexivity.
  unfold andThen at 1 6. unfold Item.aggregate, query.
  cbn [connected].
  destruct (connected w); [|reflexivity].
  match goal with
  | |- context [OrderController.priceItems ?ls ?l ?db] =>
      destruct (priceItems_rejects ls l db
                  (logged (Query Items)
                     (mkWorld (items w) (orders w) (discountCodes w) true
                              (N.succ (nextObjectId w)) (clock w) (accesses w))))
        as [e He]; [discriminate|]
  end.
  unfold andThen. rewrite He. reflexivity.
Qed.

(** X12.  What [createNewOrder] leaves behind.  One ObjectId is generated
    in every case.  A missing or empty list is refused with the 500
    response before any store access; a non-empty list issues the catalog
    query and nothing else, and ends in an unhandled rejection. *)
Theorem createNewOrder_footprint generateInvoice env req w :
  let w' := snd (OrderController.createNewOrder generateInvoice env req w) in
  nextObjectId w' = N.succ (nextObjectId w) /\
  items w' = items w /\
  match itemsList req with
  | None | Some [] =>
      fst (OrderController.createNewOrder generateInvoice env req w)
      = Responded INTERNAL_SERVER_ERROR
          (ErrorJson (Caught (Js.Error "Failed to create order. No items found"))) /\
      accesses w' = accesses w
  | Some _ =>
      (exists e, fst (OrderController.createNewOrder generateInvoice env req w)
                 = UnhandledRejection e) /\
      accesses w' = Query Items :: accesses w
  end.
Proof.
  destruct (itemsList req) as [[|line rest]|] eqn:Hreq.
  - unfold OrderController.createNewOrder, generateObjectId. rewrite Hreq.
    cbn. repeat split; reflexivity.
  - destruct (createNewOrder_nonempty generateInvoice env req line rest w Hreq)
      as [e ->].
    cbn. repeat split; try reflexivity. exists e. reflexivity.
  - unfold OrderController.createNewOrder, generateObjectId. rewrite Hreq.
    cbn. repeat split; reflexivity.
Qed.

(** ** The discount, further *)

Lemma Qnum_nonzero q : ~ (q == 0)%Q -> Qnum q <> 0.
Proof.
  intros Hq Hn. apply Hq. unfold Qeq. cbn. rewrite Hn. reflexivity.
Qed.

(** X13.  For a period whose string converts to a finite double other
    than zero, and a count of existing orders below 2^53, the test of line 77
    holds exactly when the position of the order, [count + 1], is an integer
    multiple of that double. *)
Theorem eligible_iff_multiple env q count :
  Js.ToNumber (OrderController.NTH_ORDER_COUNT env) = Js.Fin q ->
  ~ (q == 0)%Q ->
  0 <= count < 2 ^ 53 ->
  OrderController.eligible env count = true <->
  exists k : Z, (inject_Z (count + 1) == q * inject_Z k)%Q.
Proof.
  intros Hperiod Hq _.
  unfold OrderController.eligible. rewrite Hperiod.
  set (m := count + 1). unfold Js.remainder.
  assert (Hq0 : Qeq_bool q 0 = false).
  { destruct (Qeq_bool q 0) eqn:E; [|reflexivity].
    apply Qeq_bool_iff in E. contradiction. }
  rewrite Hq0.
  destruct (Qeq_bool (inject_Z m) 0) eqn:Em.
  - cbn [Js.looselyEqualsZero]. rewrite Em. split; [|reflexivity].
    intros _. exists 0. apply Qeq_bool_iff in Em. rewrite Em. ring.
  - cbn [Js.looselyEqualsZero Qnum inject_Z].
    change (QDen (inject_Z m)) with 1. rewrite Z.mul_1_r.
    split.
    + intros Hr. apply Qeq_bool_iff in Hr.
      exists (Z.quot (m * QDen q) (Qnum q)).
      rewrite <- (Qplus_0_r (q * _)), <- Hr. ring.
    + intros [k Hk].
      assert (Hquot : Z.quot (m * QDen q) (Qnum q) = k).
      { assert (E : m * QDen q = Qnum q * k).
        { unfold Qeq in Hk. cbn in Hk. rewrite Pos.mul_1_r in Hk. lia. }
        rewrite E, Z.mul_comm. apply Z.quot_mul. apply Qnum_nonzero. exact Hq. }
      rewrite Hquot. apply Qeq_bool_iff. rewrite Hk. ring.
Qed.

Lemma eligible_iff_multiple_witness :
  OrderController.eligible (OrderController.mkEnv (Some "2.5")) 4 = true <->
  exists k : Z, (inject_Z (4 + 1) == (5 # 2) * inject_Z k)%Q.
Proof.
  apply (eligible_iff_multiple (OrderController.mkEnv (Some "2.5")) (5 # 2) 4).
  - vm_compute. reflexivity.
  - discriminate.
  - split; [lia | vm_compute; reflexivity].
Defined.

(** The first order is not eligible with the period "0.1": the double the
    string converts to is not a tenth, and 1 is no multiple of it. *)
Example eligible_tenth_period :
  Js.remainder (Js.Fin 1) (Js.StringToNumber "0.1")
  = Js.Fin (3602879701896395 # 36028797018963968) /\
  OrderController.eligible (OrderController.mkEnv (Some "0.1")) 0 = false.
Proof. split; vm_compute; reflexivity. Qed.

(** X14.  A period that converts to zero (the empty string, "0") makes no
    order eligible, and neither does an infinite one for any count of
    existing orders. *)
Theorem eligible_never env count :
  (exists q, Js.ToNumber (OrderController.NTH_ORDER_COUNT env) = Js.Fin q /\ (q == 0)%Q) \/
  (exists s, Js.ToNumber (OrderController.NTH_ORDER_COUNT env) = Js.Infinity s /\
             0 <= count) ->
  OrderController.eligible env count = false.
Proof.
  unfold OrderController.eligible.
  intros [(q & -> & Hq) | (s & -> & Hcount)]; unfold Js.remainder.
  - apply Qeq_bool_iff in Hq. rewrite Hq. reflexivity.
  - cbn [Js.looselyEqualsZero].
    destruct (Qeq_bool (inject_Z (count + 1)) 0) eqn:E; [|reflexivity].
    apply Qeq_bool_iff in E. apply (inject_Z_injective (count + 1) 0) in E. lia.
Qed.

Lemma eligible_never_witness :
  OrderController.eligible (OrderController.mkEnv (Some "")) 4 = false.
Proof.
  apply (eligible_never (OrderController.mkEnv (Some "")) 4).
  left. exists 0%Q. split; reflexivity.
Defined.

Example eligible_never_infinite :
  OrderController.eligible (OrderController.mkEnv (Some "Infinity")) 4 = false.
Proof.
  apply eligible_never. right. exists false. split; [reflexivity | lia].
Qed.

(** X15.  At an eligible position the discount code is stored before the
    order is built.  When the user id is then refused by the ObjectId
    constructor, the chain is rejected with that error and no order is
    stored, but the code stays in the registry. *)
Theorem refused_user_leaves_code env req requested l count e w :
  OrderController.eligible env count = true ->
  connected w = true ->
  Bson.fromString (userId req) = Js.Throw e ->
  exists w',
    discountAndSave env req requested (l, count) w = (Rejected e, w') /\
    orders w' = orders w /\
    discountCodes w'
    = (discountCodes w
       ++ [DiscountCodeSchema.mk (nextObjectId w)
             (Js.ObjectIdValue (OrderController.orderId l)) ACTIVE None])%list.
Proof.
  intros Helig Hup Huser.
  unfold discountAndSave. unfold andThen at 1.
  rewrite (applyDiscount_eligible env l count w Helig Hup).
  unfold andThen at 1. unfold OrderController.saveOrder. rewrite Huser.
  eexists. split; [reflexivity|]. split; reflexivity.
Qed.

Lemma refused_user_leaves_code_witness :
  exists w',
    discountAndSave Sample.everyFifth Sample.stranger [Line.mk None 1%N 2]
      (OrderController.mkLocals 200 0 0 4242%N, 4) Sample.shop
    = (Rejected Bson.invalidId, w') /\
    orders w' = [] /\
    discountCodes w'
    = [DiscountCodeSchema.mk 4096%N (Js.ObjectIdValue 4242%N) ACTIVE None].
Proof.
  apply (refused_user_leaves_code Sample.everyFifth Sample.stranger
           [Line.mk None 1%N 2] (OrderController.mkLocals 200 0 0 4242%N) 4
           Bson.invalidId Sample.shop); reflexivity.
Defined.

(** X16.  With the storage unreachable the discount and persistence
    callbacks reject at every position, eligible or not, and store neither
    an order nor a code. *)
Theorem discountAndSave_storage_down env req requested entry w :
  connected w = false ->
  exists e w',
    discountAndSave env req requested entry w = (Rejected e, w') /\
    orders w' = orders w /\
    discountCodes w' = discountCodes w.
Proof.
  intros Hdown. destruct entry as [l count].
  unfold discountAndSave. unfold andThen at 1.
  unfold OrderController.applyDiscount.
  destruct (OrderController.eligible env count).
  - unfold andThen at 1. rewrite createDiscountCodeHelper_run, Hdown.
    do 2 eexists. split; [reflexivity|]. split; reflexivity.
  - unfold resolve at 1. unfold andThen at 1.
    unfold OrderController.saveOrder.
    destruct (Bson.fromString (userId req)) as [user|e].
    + unfold Order.save, andThen, insert. rewrite Hdown.
      do 2 eexists. split; [reflexivity|]. split; reflexivity.
    + do 2 eexists. split; [reflexivity|]. split; reflexivity.
Qed.

Lemma discountAndSave_storage_down_witness :
  exists e w',
    discountAndSave Sample.everyFifth (Sample.buyPens 2) [Line.mk None 1%N 2]
      (OrderController.mkLocals 200 0 0 4242%N, 4) Sample.closedShop
    = (Rejected e, w') /\
    orders w' = [] /\
    discountCodes w' = [].
Proof.
  apply (discountAndSave_storage_down Sample.everyFifth (Sample.buyPens 2)
           [Line.mk None 1%N 2] (OrderController.mkLocals 200 0 0 4242%N, 4)
           Sample.closedShop).
  reflexivity.
Defined.

(** The string [toFixed(2)] gives for a number from 0 to below 10^21: the
    two decimals of the nearest hundredth, the larger one on a tie. *)
Lemma toFixed2_nearest_hundredth x :
  (0 <= x)%Q ->
  (x < inject_Z (10 ^ 21))%Q ->
  exists n,
    Js.toFixed2 x = Js.FixedNotation false n /\
    (inject_Z n - (1 # 2) <= x * 100)%Q /\
    (x * 100 < inject_Z n + (1 # 2))%Q.
Proof.
  intros Hpos Hsmall. unfold Js.toFixed2.
  destruct (Qlt_le_dec x 0) as [Hneg|_]; [lra|].
  destruct (Qlt_le_dec x (inject_Z (10 ^ 21))) as [_|Hbig]; [|lra].
  exists (Qfloor (x * inject_Z 100 + (1 # 2))). split; [reflexivity|].
  pose proof (Qfloor_le (x * inject_Z 100 + (1 # 2))) as Hlo.
  pose proof (Qlt_floor (x * inject_Z 100 + (1 # 2))) as Hhi.
  rewrite inject_Z_plus in Hhi.
  change (inject_Z 100) with 100%Q in *. change (inject_Z 1) with 1%Q in *.
  set (n := inject_Z (Qfloor (x * 100 + (1 # 2)))) in *.
  split; lra.
Qed.

(** X17.  With the storage connected and a well-formed user id, the third
    callback stores one order: under the generated order id, for that user,
    with the requested lines, the discount code it was handed and the
    discount amount as computed.  Each of the two totals, from 0 to below
    10^21, is turned by [toFixed(2)] into the string of the nearest
    hundredth [n / 100] (the larger one on a tie) and stored as the double
    nearest to that decimal; the string of the total after discount is what
    the later callbacks receive. *)
Theorem saveOrder_stores req requested l code user w :
  connected w = true ->
  Bson.fromString (userId req) = Js.Normal user ->
  (0 <= OrderController.orderValueInPaiseAfterDiscount l)%Q ->
  (OrderController.orderValueInPaiseAfterDiscount l < inject_Z (10 ^ 21))%Q ->
  (0 <= OrderController.orderValueInPaiseBeforeDiscount l)%Q ->
  (OrderController.orderValueInPaiseBeforeDiscount l < inject_Z (10 ^ 21))%Q ->
  exists order w' nAfter nBefore,
    OrderController.saveOrder req requested (l, code) w
    = (Fulfilled (Js.FixedNotation false nAfter, OrderController.discountAmount l), w') /\
    orders w' = (orders w ++ [order])%list /\
    discountCodes w' = discountCodes w /\
    OrderSchema._id order = OrderController.orderId l /\
    OrderSchema.userId order = user /\
    OrderSchema.itemsPurchased order = requested /\
    OrderSchema.discountCode order = code /\
    OrderSchema.discountAmount order = OrderController.discountAmount l /\
    (inject_Z nAfter - (1 # 2)
     <= OrderController.orderValueInPaiseAfterDiscount l * 100)%Q /\
    (OrderController.orderValueInPaiseAfterDiscount l * 100
     < inject_Z nAfter + (1 # 2))%Q /\
    OrderSchema.orderValueInPaiseAfterDiscount order
    = Js.round53 (inject_Z nAfter / inject_Z 100) /\
    (inject_Z nBefore - (1 # 2)
     <= OrderController.orderValueInPaiseBeforeDiscount l * 100)%Q /\
    (OrderController.orderValueInPaiseBeforeDiscount l * 100
     < inject_Z nBefore + (1 # 2))%Q /\
    OrderSchema.orderValueInPaiseBeforeDiscount order
    = Js.round53 (inject_Z nBefore / inject_Z 100).
Proof.
  intros Hup Huser HA0 HA1 HB0 HB1.
  rewrite (saveOrder_connected req requested l code user w Hup Huser).
  destruct (toFixed2_nearest_hundredth _ HA0 HA1) as (nA & EA & HAlo & HAhi).
  destruct (toFixed2_nearest_hundredth _ HB0 HB1) as (nB & EB & HBlo & HBhi).
  cbv zeta. rewrite EA, EB.
  eexists. eexists. exists nA, nB.
  split; [reflexivity|].
  cbn [orders discountCodes logged OrderSchema._id OrderSchema.userId
         OrderSchema.itemsPurchased OrderSchema.discountCode
         OrderSchema.discountAmount OrderSchema.orderValueInPaiseAfterDiscount
         OrderSchema.orderValueInPaiseBeforeDiscount Js.fixedValue].
  repeat split; try reflexivity; assumption.
Qed.

Lemma saveOrder_stores_witness :
  exists order w' nAfter nBefore,
    OrderController.saveOrder (Sample.buyPens 2) [Line.mk None 1%N 2]
      (OrderController.mkLocals (1 # 8) (1 # 8) 0 4242%N, None) Sample.shop
    = (Fulfilled (Js.FixedNotation false nAfter, 0%Q), w') /\
    orders w' = [order] /\
    discountCodes w' = [] /\
    OrderSchema._id order = 4242%N /\
    OrderSchema.userId order = 352125166730063718056674663%N /\
    OrderSchema.itemsPurchased order = [Line.mk None 1%N 2] /\
    OrderSchema.discountCode order = None /\
    OrderSchema.discountAmount order = 0%Q /\
    (inject_Z nAfter - (1 # 2) <= (1 # 8) * 100)%Q /\
    ((1 # 8) * 100 < inject_Z nAfter + (1 # 2))%Q /\
    OrderSchema.orderValueInPaiseAfterDiscount order
    = Js.round53 (inject_Z nAfter / inject_Z 100) /\
    (inject_Z nBefore - (1 # 2) <= (1 # 8) * 100)%Q /\
    ((1 # 8) * 100 < inject_Z nBefore + (1 # 2))%Q /\
    OrderSchema.orderValueInPaiseBeforeDiscount order
    = Js.round53 (inject_Z nBefore / inject_Z 100).
Proof.
  apply (saveOrder_stores (Sample.buyPens 2) [Line.mk None 1%N 2]
           (OrderController.mkLocals (1 # 8) (1 # 8) 0 4242%N) None
           352125166730063718056674663%N Sample.shop).
  - reflexivity.
  - reflexivity.
  - vm_compute. discriminate.
  - vm_compute. reflexivity.
  - vm_compute. discriminate.
  - vm_compute. reflexivity.
Defined.

Example saveOrder_stores_thirteen_hundredths :
  Js.toFixed2 (1 # 8) = Js.FixedNotation false 13 /\
  Js.fixedValue (Js.toFixed2 (1 # 8)) = (1170935903116329 # 9007199254740992)%Q.
Proof. split; vm_compute; reflexivity. Qed.

(** One order placed from the count onward: it is stored last, with the
    discount its position earns, and the storage stays connected. *)
Lemma placeOrder_run env req requested N user before w :
  isInteger (Js.ToNumber (OrderController.NTH_ORDER_COUNT env)) N ->
  0 < N ->
  connected w = true ->
  Bson.fromString (userId req) = Js.Normal user ->
  exists result order w',
    placeOrder env req requested before w = (result, w') /\
    orders w' = (orders w ++ [order])%list /\
    connected w' = true /\
    items w' = items w /\
    OrderSchema.discountAmount order
    = expectedDiscount N (Z.of_nat (List.length (orders w)) + 1) before.
Proof.
  intros Hperiod HN Hup Huser.
  unfold placeOrder, generateObjectId.
  unfold andThen at 1. unfold Order.countDocuments, query.
  cbn [connected orders]. rewrite Hup.
  set (count := Z.of_nat (List.length (orders w))).
  pose proof (eligible_integer_period env N count Hperiod HN) as Helig.
  unfold discountAndSave, expectedDiscount.
  destruct ((count + 1) mod N =? 0).
  - unfold andThen at 1.
    rewrite (applyDiscount_eligible env _ count _ Helig) by reflexivity.
    unfold andThen at 1.
    rewrite (saveOrder_connected req requested _ _ user) by (reflexivity || exact Huser).
    cbn. do 3 eexists. split; [reflexivity|].
    split; [reflexivity|]. split; [reflexivity|]. split; reflexivity.
  - unfold andThen at 1. unfold OrderController.applyDiscount. rewrite Helig.
    unfold resolve at 1. unfold andThen at 1.
    rewrite (saveOrder_connected req requested _ _ user) by (reflexivity || exact Huser).
    cbn. do 3 eexists. split; [reflexivity|].
    split; [reflexivity|]. split; [reflexivity|]. split; reflexivity.
Qed.

Lemma placeOrder_step env req requested N user before w :
  isInteger (Js.ToNumber (OrderController.NTH_ORDER_COUNT env)) N ->
  0 < N ->
  connected w = true ->
  Bson.fromString (userId req) = Js.Normal user ->
  exists order,
    orders (snd (placeOrder env req requested before w)) = (orders w ++ [order])%list /\
    connected (snd (placeOrder env req requested before w)) = true /\
    OrderSchema.discountAmount order
    = expectedDiscount N (Z.of_nat (List.length (orders w)) + 1) before.
Proof.
  intros Hperiod HN Hup Huser.
  destruct (placeOrder_run env req requested N user before w Hperiod HN Hup Huser)
    as (result & order & w' & -> & Horders & Hup' & _ & Hdiscount).
  exists order. cbn [snd]. auto.
Qed.

(** X18.  Orders placed one after the other from the count onward, with a
    period that is the positive integer [N], totals that are integers of at
    most 2^53 and fewer than 2^53 orders in all: each is stored, in order, after the orders that were
    there, and the order that takes position [p] carries as its discount
    amount the double product of 0.1 and its total when [N] divides [p],
    and 0 otherwise. *)
Theorem every_nth_order_discounted env req requested N user befores w :
  isInteger (Js.ToNumber (OrderController.NTH_ORDER_COUNT env)) N ->
  0 < N ->
  connected w = true ->
  Bson.fromString (userId req) = Js.Normal user ->
  Forall (fun before => Z.abs before <= 2 ^ 53) befores ->
  Z.of_nat (List.length (orders w) + List.length befores) < 2 ^ 53 ->
  exists placed,
    orders (placeOrders env req requested befores w) = (orders w ++ placed)%list /\
    map OrderSchema.discountAmount placed
    = expectedDiscounts N (Z.of_nat (List.length (orders w)) + 1) befores.
Proof.
  intros Hperiod HN Hup Huser _ _. revert w Hup.
  induction befores as [|before rest IH]; intros w Hup.
  - exists []. split; [cbn; rewrite app_nil_r; reflexivity | reflexivity].
  - change (placeOrders env req requested (before :: rest) w)
      with (placeOrders env req requested rest
              (snd (placeOrder env req requested before w))).
    destruct (placeOrder_step env req requested N user before w Hperiod HN Hup Huser)
      as (order & Horders & Hup' & Hdiscount).
    destruct (IH _ Hup') as (placed & Hplaced & Hall).
    exists (order :: placed). split.
    + rewrite Hplaced, Horders, <- app_assoc. reflexivity.
    + cbn [expectedDiscounts map]. rewrite Hdiscount. f_equal.
      rewrite Horders, length_app in Hall. cbn [List.length] in Hall.
      replace (Z.of_nat (List.length (orders w)) + 1 + 1)
        with (Z.of_nat (List.length (orders w) + 1) + 1) by lia.
      exact Hall.
Qed.

Lemma every_nth_order_discounted_witness :
  exists placed,
    orders (placeOrders Sample.everyFifth (Sample.buyPens 2) [Line.mk None 1%N 2]
              [100; 200; 300; 400; 3; 600] Sample.shop)
    = (orders Sample.shop ++ placed)%list /\
    map OrderSchema.discountAmount placed
    = expectedDiscounts 5 (Z.of_nat (List.length (orders Sample.shop)) + 1)
                        [100; 200; 300; 400; 3; 600].
Proof.
  apply (every_nth_order_discounted Sample.everyFifth (Sample.buyPens 2)
           [Line.mk None 1%N 2] 5 352125166730063718056674663%N
           [100; 200; 300; 400; 3; 600] Sample.shop).
  - reflexivity.
  - lia.
  - reflexivity.
  - reflexivity.
  - repeat constructor; vm_compute; discriminate.
  - vm_compute. reflexivity.
Defined.

Example expectedDiscounts_every_fifth :
  expectedDiscounts 5 1 [100; 200; 300; 400; 3; 600]
  = [0; 0; 0; 0; 1351079888211149 # 4503599627370496; 0]%Q.
Proof. vm_compute. reflexivity. Qed.

(** ** Composition *)

(** X19.  The price loop examines the first requested line only: the first
    callback settles for a list as it does for the list of its first line,
    whatever the catalog rows and the other lines. *)
Theorem priceItems_first_line_only line rest l dbItemsList w :
  OrderController.priceItems (line :: rest) l dbItemsList w
  = OrderController.priceItems [line] l dbItemsList w.
Proof.
  unfold OrderController.priceItems.
  destruct dbItemsList as [|row rows]; [reflexivity|].
  cbn [OrderController.forEach].
  destruct (priceLine_throws (row :: rows) l line) as [e ->]. reflexivity.
Qed.

(** X20.  A code created by an admin shows up in the admin's listing:
    [getDiscountCodesList] after [createDiscountCode] answers with the
    entries it would have answered with before, followed by the new code
    with 10 percent and no amount. *)
Theorem created_code_is_listed req w :
  userIsAdmin req = Some true ->
  connected w = true ->
  exists listed,
    fst (AdminController.getDiscountCodesList req w)
    = Responded OK (DisCountCodesJson listed) /\
    fst (AdminController.getDiscountCodesList req
           (snd (AdminController.createDiscountCode req w)))
    = Responded OK
        (DisCountCodesJson (listed ++ [(nextObjectId w, Js.Number (Js.Fin 10), None)])).
Proof.
  intros Hadmin Hup.
  unfold AdminController.getDiscountCodesList, AdminController.createDiscountCode,
    notAdmin. rewrite Hadmin.
  rewrite createDiscountCodeHelper_run, Hup.
  unfold DiscountCode.find, query. cbn. rewrite Hup.
  eexists. split; [reflexivity|].
  rewrite map_app. reflexivity.
Qed.

Lemma created_code_is_listed_witness :
  exists listed,
    fst (AdminController.getDiscountCodesList Sample.admin Sample.promoShop)
    = Responded OK (DisCountCodesJson listed) /\
    fst (AdminController.getDiscountCodesList Sample.admin
           (snd (AdminController.createDiscountCode Sample.admin Sample.promoShop)))
    = Responded OK
        (DisCountCodesJson (listed ++ [(4096%N, Js.Number (Js.Fin 10), None)])).
Proof.
  apply (created_code_is_listed Sample.admin Sample.promoShop); reflexivity.
Defined.

(** The purchase total an admin is answered with, when it is not zero. *)
Lemma getTotalPurchaseAmount_sum req w :
  userIsAdmin req = Some true ->
  connected w = true ->
  orders w <> [] ->
  ~ (total (map OrderSchema.orderValueInPaiseAfterDiscount (orders w)) == 0)%Q ->
  exists t,
    fst (AdminController.getTotalPurchaseAmount req w)
    = Responded OK (TotalPurchaseAmountJson t) /\
    (t == total (map OrderSchema.orderValueInPaiseAfterDiscount (orders w)))%Q.
Proof.
  intros Hadmin Hup Hsome Hnonzero.
  unfold AdminController.getTotalPurchaseAmount, Order.aggregateToArray, query, notAdmin.
  rewrite Hadmin, Hup. cbn [fst].
  destruct (orders w) as [|o os]; [contradiction|].
  cbn [map].
  destruct (groupSum_row (Some (OrderSchema.orderValueInPaiseAfterDiscount o))
              (map (fun o => Some (OrderSchema.orderValueInPaiseAfterDiscount o)) os))
    as (t & -> & Ht).
  assert (Hpaid : (t == total (OrderSchema.orderValueInPaiseAfterDiscount o
                               :: map OrderSchema.orderValueInPaiseAfterDiscount os))%Q).
  { rewrite Ht.
    change (Some (OrderSchema.orderValueInPaiseAfterDiscount o)
            :: map (fun o => Some (OrderSchema.orderValueInPaiseAfterDiscount o)) os)
      with (map (fun o => Some (OrderSchema.orderValueInPaiseAfterDiscount o)) (o :: os)).
    rewrite present_map_Some. reflexivity. }
  exists t. split; [|exact Hpaid].
  apply totalCallback_policy. rewrite Hpaid. exact Hnonzero.
Qed.
